(** * AITRIOS data receiver: the ingestion pipeline of [main.py]

    A shallow embedding of the two PUT handlers of the receiver
    ([update_image], [update_inference_result]) and of the two save
    routines they call ([save_image_file], [save_meta_file]), together with
    the parts of the Python runtime they rest on: [str.split],
    [str.endswith], slicing, [pathlib] joins, [Path.mkdir], opening a file
    for writing, the process-wide [processing_stats] dictionary and
    [try]/[except].

    Modelling conventions.
    - Python [str] is [string]; [bytes] is [list byte].  Text written to a
      file is taken to be its UTF-8 byte sequence already.
    - Python integers are [Z]; the wall clock ([time.time]) is a sequence of
      rational readings, so the float arithmetic on elapsed time is
      idealised as exact arithmetic.
    - The filesystem is a finite map from canonical locations (the list of
      directory names from the filesystem root) to nodes, with the current
      working directory.  There are no symbolic links, no permissions and
      no quotas: the only failures are the structural ones (a missing
      directory, a file where a directory is needed, a directory where a
      file is needed, an existing entry, a NUL character in a name).
    - [json.loads], [json.dumps] and the inference decoder
      ([DeserializeUtil.get_deserialize_data], which lives outside
      [main.py]) are parameters, bundled in the class [Env]. *)

From Stdlib Require Import ZArith QArith String Ascii Strings.Byte List Lia Bool.
From Stdlib Require Import DecimalString Qround.
From stdpp Require Import base option list gmap strings.

Set Warnings "-register-all".
Local Open Scope string_scope.
Local Open Scope list_scope.
Local Open Scope Z_scope.

(** ** Python strings *)

Module PyStr.

(** [s.split(sep)] for a one-character separator: never the empty list. *)
Fixpoint split (sep : ascii) (s : string) : list string :=
  match s with
  | EmptyString => [EmptyString]
  | String c s' =>
      if Ascii.eqb c sep then EmptyString :: split sep s'
      else match split sep s' with
           | x :: r => String c x :: r
           | [] => [String c EmptyString]
           end
  end.

Fixpoint take (n : nat) (s : string) : string :=
  match n, s with
  | S n', String c s' => String c (take n' s')
  | _, _ => EmptyString
  end.

Fixpoint drop (n : nat) (s : string) : string :=
  match n, s with
  | S n', String _ s' => drop n' s'
  | _, _ => s
  end.

(** [s.endswith(suffix)]: the tail of [s] of the suffix's length is the
    suffix. *)
Definition endswith (s suffix : string) : bool :=
  (String.length suffix <=? String.length s)%nat
  && String.eqb (drop (String.length s - String.length suffix) s) suffix.

(** [s[:-k]] for [k > 0]: all but the last [k] characters (empty when [s]
    is shorter). *)
Definition slice_to_neg (k : nat) (s : string) : string :=
  take (String.length s - k) s.

(** [sep.join(l)]. *)
Fixpoint join (sep : string) (l : list string) : string :=
  match l with
  | [] => EmptyString
  | [x] => x
  | x :: r => x +:+ sep +:+ join sep r
  end.

Fixpoint contains_char (c : ascii) (s : string) : bool :=
  match s with
  | EmptyString => false
  | String d s' => Ascii.eqb d c || contains_char c s'
  end.

Definition lower_char (c : ascii) : ascii :=
  let n := nat_of_ascii c in
  if ((65 <=? n) && (n <=? 90))%nat then ascii_of_nat (n + 32) else c.

Fixpoint lower (s : string) : string :=
  match s with
  | EmptyString => EmptyString
  | String c s' => String (lower_char c) (lower s')
  end.

End PyStr.

(** [l[-1]] on a list that [split] produced (never empty). *)
Definition list_last (l : list string) : string := List.last l EmptyString.

(** [l[:-1]]. *)
Definition list_init (l : list string) : list string := List.removelast l.

(** ** Python values and exceptions *)

(** The values that flow through the metadata handler: what [json.loads]
    produces, plus [PyObj] for any other object a decoder may hand back
    (which [json.dumps] is free to refuse). A float is kept as its [repr];
    only its truth value is ever inspected. *)

Inductive pyval :=
| PyNone
| PyBool (b : bool)
| PyInt (z : Z)
| PyFloat (repr : string)
| PyString (s : string)
| PyList (l : list pyval)
| PyDict (d : list (string * pyval))
| PyObj (repr : string).

Inductive oserror := ENOENT | EEXIST | ENOTDIR | EISDIR.

Inductive exn :=
| OSError (kind : oserror) (filename : string)
| ValueError (msg : string)
| TypeError (msg : string)
| AttributeError (msg : string)
| KeyError (msg : string)
| IndexError (msg : string)
| OtherError (cls msg : string).

Definition strerror (k : oserror) : string :=
  match k with
  | ENOENT => "[Errno 2] No such file or directory: '"
  | EEXIST => "[Errno 17] File exists: '"
  | ENOTDIR => "[Errno 20] Not a directory: '"
  | EISDIR => "[Errno 21] Is a directory: '"
  end.

(** [str(e)]. *)
Definition str_exn (e : exn) : string :=
  match e with
  | OSError k f => strerror k +:+ f +:+ "'"
  | ValueError m | TypeError m | AttributeError m | KeyError m
  | IndexError m | OtherError _ m => m
  end.

Inductive Result (A : Type) :=
| Ok (a : A)
| Raise (e : exn).
Arguments Ok {A} a.
Arguments Raise {A} e.

Module PyVal.

Definition type_name (v : pyval) : string :=
  match v with
  | PyNone => "NoneType"
  | PyBool _ => "bool"
  | PyInt _ => "int"
  | PyFloat _ => "float"
  | PyString _ => "str"
  | PyList _ => "list"
  | PyDict _ => "dict"
  | PyObj _ => "object"
  end.

(** Truth value, as tested by [if v:]. *)
Definition truthy (v : pyval) : bool :=
  match v with
  | PyNone => false
  | PyBool b => b
  | PyInt z => negb (z =? 0)
  | PyFloat r => negb (String.eqb r "0.0" || String.eqb r "-0.0")
  | PyString s => negb (String.eqb s EmptyString)
  | PyList l => match l with [] => false | _ => true end
  | PyDict d => match d with [] => false | _ => true end
  | PyObj _ => true
  end.

(** Dictionaries keep insertion order. *)
Fixpoint dict_lookup (k : string) (d : list (string * pyval)) : option pyval :=
  match d with
  | [] => None
  | (k', v) :: r => if String.eqb k' k then Some v else dict_lookup k r
  end.

(** [d[k] = v]: replaces in place, or appends a new last entry. *)
Fixpoint dict_set (k : string) (v : pyval) (d : list (string * pyval))
  : list (string * pyval) :=
  match d with
  | [] => [(k, v)]
  | (k', v') :: r =>
      if String.eqb k' k then (k', v) :: r else (k', v') :: dict_set k v r
  end.

(** [v.get(k, default)]: only dictionaries have the method. *)
Definition get (v : pyval) (k : string) (dflt : pyval) : Result pyval :=
  match v with
  | PyDict d => Ok (default dflt (dict_lookup k d))
  | _ => Raise (AttributeError
                  ("'" +:+ type_name v +:+ "' object has no attribute 'get'"))
  end.

(** [v[0]]. The keys of a dictionary read from JSON are strings, so the
    integer key [0] is never present. *)
Definition getitem0 (v : pyval) : Result pyval :=
  match v with
  | PyList (x :: _) => Ok x
  | PyList [] => Raise (IndexError "list index out of range")
  | PyString (String c _) => Ok (PyString (String c EmptyString))
  | PyString EmptyString => Raise (IndexError "string index out of range")
  | PyDict _ => Raise (KeyError "0")
  | _ => Raise (TypeError
                  ("'" +:+ type_name v +:+ "' object is not subscriptable"))
  end.

(** [v[k] = x] for a string key [k]. *)
Definition setitem (v : pyval) (k : string) (x : pyval) : Result pyval :=
  match v with
  | PyDict d => Ok (PyDict (dict_set k x d))
  | PyList _ =>
      Raise (TypeError "list indices must be integers or slices, not str")
  | _ => Raise (TypeError ("'" +:+ type_name v
                           +:+ "' object does not support item assignment"))
  end.

End PyVal.

(** ** pathlib: pure POSIX paths *)

(** A path is its anchor (the root [/] or nothing) and its parts. Parsing
    drops empty and [.] components and keeps [..]. *)
Record Path := mkPath { absolute : bool; parts : list string }.

Module PurePath.

Definition starts_with_slash (s : string) : bool :=
  match s with
  | String c _ => Ascii.eqb c "/"
  | EmptyString => false
  end.

Definition keep_part (s : string) : bool :=
  negb (String.eqb s EmptyString) && negb (String.eqb s ".").

(** [Path(s)]. *)
Definition of_string (s : string) : Path :=
  {| absolute := starts_with_slash s;
     parts := List.filter keep_part (PyStr.split "/" s) |}.

(** [p / s]: an absolute right operand replaces the left one. *)
Definition truediv (p : Path) (s : string) : Path :=
  let q := of_string s in
  if absolute q then q
  else {| absolute := absolute p; parts := (parts p ++ parts q)%list |}.

(** [str(p)]. *)
Definition str (p : Path) : string :=
  match absolute p, parts p with
  | false, [] => "."
  | false, l => PyStr.join "/" l
  | true, l => "/" +:+ PyStr.join "/" l
  end.

(** [p.parent]: a path without parts is its own parent. *)
Definition parent (p : Path) : Path :=
  {| absolute := absolute p; parts := List.removelast (parts p) |}.

End PurePath.

(** ** The filesystem *)

Inductive inode :=
| IDir
| IFile (data : list byte).

Record FS := mkFS { cwd : list string; tree : gmap (list string) inode }.

Module Fs.

(** The node at a canonical location; the root always is a directory. *)
Definition node_at (t : gmap (list string) inode) (loc : list string)
  : option inode :=
  match loc with
  | [] => Some IDir
  | _ => t !! loc
  end.

(** One component of a path, from the directory [cur]. *)
Definition step (cur : list string) (c : string) : list string :=
  if String.eqb c ".." then List.removelast cur else (cur ++ [c])%list.

(** Follow [comps] from [cur]; every component must lead to a directory. *)
Fixpoint walk (t : gmap (list string) inode) (cur : list string)
  (comps : list string) : list string + oserror :=
  match comps with
  | [] => inl cur
  | c :: rest =>
      let next := step cur c in
      match node_at t next with
      | Some IDir => walk t next rest
      | Some (IFile _) => inr ENOTDIR
      | None => inr ENOENT
      end
  end.

Definition start (fs : FS) (p : Path) : list string :=
  if absolute p then [] else cwd fs.

Definition has_nul (p : Path) : bool :=
  existsb (PyStr.contains_char "000"%char) (parts p).

(** [os.mkdir(p)]. *)
Definition os_mkdir (p : Path) (fs : FS) : Result FS :=
  if has_nul p then Raise (ValueError "embedded null byte") else
  match parts p with
  | [] => Raise (OSError EEXIST (PurePath.str p))
  | _ =>
      match walk (tree fs) (start fs p) (List.removelast (parts p)) with
      | inr k => Raise (OSError k (PurePath.str p))
      | inl d =>
          let c := List.last (parts p) EmptyString in
          if String.eqb c ".." then Raise (OSError EEXIST (PurePath.str p))
          else match node_at (tree fs) (d ++ [c])%list with
               | Some _ => Raise (OSError EEXIST (PurePath.str p))
               | None =>
                   Ok {| cwd := cwd fs; tree := <[(d ++ [c])%list := IDir]> (tree fs) |}
               end
      end
  end.

(** [p.is_dir()]. *)
Definition is_dir (p : Path) (fs : FS) : bool :=
  negb (has_nul p) &&
  match walk (tree fs) (start fs p) (parts p) with
  | inl _ => true
  | inr _ => false
  end.

(** [p.mkdir(parents=False, exist_ok=exist_ok)]. *)
Definition mkdir_single (exist_ok : bool) (p : Path) (fs : FS) : Result FS :=
  match os_mkdir p fs with
  | Ok fs' => Ok fs'
  | Raise (OSError ENOENT f) => Raise (OSError ENOENT f)
  | Raise (OSError k f) =>
      if exist_ok && is_dir p fs then Ok fs else Raise (OSError k f)
  | Raise e => Raise e
  end.

(** [p.mkdir(parents=True, exist_ok=True)], by recursion on the parts of
    [p] read from the last one: [rparts] is [parts p] reversed. The
    directories made before a failure stay. *)
Fixpoint mkdir_parents (a : bool) (rparts : list string) (fs : FS)
  : Result unit * FS :=
  let p := {| absolute := a; parts := List.rev rparts |} in
  match os_mkdir p fs with
  | Ok fs' => (Ok tt, fs')
  | Raise (OSError ENOENT f) =>
      match rparts with
      | [] => (Raise (OSError ENOENT f), fs)
      | _ :: rparent =>
          match mkdir_parents a rparent fs with
          | (Ok _, fs1) =>
              match mkdir_single true p fs1 with
              | Ok fs2 => (Ok tt, fs2)
              | Raise e => (Raise e, fs1)
              end
          | (Raise e, fs1) => (Raise e, fs1)
          end
      end
  | Raise (OSError k f) =>
      if is_dir p fs then (Ok tt, fs) else (Raise (OSError k f), fs)
  | Raise e => (Raise e, fs)
  end.

Definition mkdir (p : Path) (fs : FS) : Result unit * FS :=
  mkdir_parents (absolute p) (List.rev (parts p)) fs.

(** [open(p, 'w')] / [open(p, 'wb')]: the file is created, or emptied when
    it exists; the result is the location of the open file. *)
Definition open_trunc (p : Path) (fs : FS) : Result (list string * FS) :=
  if has_nul p then Raise (ValueError "embedded null byte") else
  match parts p with
  | [] => Raise (OSError EISDIR (PurePath.str p))
  | _ =>
      match walk (tree fs) (start fs p) (List.removelast (parts p)) with
      | inr k => Raise (OSError k (PurePath.str p))
      | inl d =>
          let c := List.last (parts p) EmptyString in
          if String.eqb c ".." then Raise (OSError EISDIR (PurePath.str p))
          else match node_at (tree fs) (d ++ [c])%list with
               | Some IDir => Raise (OSError EISDIR (PurePath.str p))
               | _ =>
                   Ok ((d ++ [c])%list,
                       {| cwd := cwd fs;
                          tree := <[(d ++ [c])%list := IFile []]> (tree fs) |})
               end
      end
  end.

(** [f.write(data)] on the open file at [loc]: the data goes after what
    the file holds. *)
Definition write (loc : list string) (data : list byte) (fs : FS) : FS :=
  match tree fs !! loc with
  | Some (IFile old) =>
      {| cwd := cwd fs; tree := <[loc := IFile (old ++ data)%list]> (tree fs) |}
  | _ => fs
  end.

(** The canonical location a path names, when every directory on the way
    exists. *)
Definition locate (p : Path) (fs : FS) : option (list string) :=
  match parts p with
  | [] => Some (start fs p)
  | _ =>
      match walk (tree fs) (start fs p) (List.removelast (parts p)) with
      | inr _ => None
      | inl d =>
          let c := List.last (parts p) EmptyString in
          Some (step d c)
      end
  end.

(** The content of the regular file a path names. *)
Definition read (p : Path) (fs : FS) : option (list byte) :=
  match locate p fs with
  | Some loc =>
      match node_at (tree fs) loc with
      | Some (IFile data) => Some data
      | _ => None
      end
  | None => None
  end.

(** No regular file sits where the directories [comps], read from [cur],
    are to be. *)
Fixpoint clear_way (t : gmap (list string) inode) (cur : list string)
  (comps : list string) : bool :=
  match comps with
  | [] => true
  | c :: r =>
      match t !! (cur ++ [c])%list with
      | Some (IFile _) => false
      | _ => clear_way t (cur ++ [c])%list r
      end
  end.

End Fs.

(** ** The process state and the monad of handlers *)

(** [processing_stats]. *)
Record Stats := mkStats {
  images_received : Z;
  meta_received : Z;
  errors : Z;
  start_time : Q
}.

Inductive log_field :=
| LText (s : string)
| LValue (v : pyval)
| LSeconds (q : Q).

(** What the handlers emit: [logging] records and, on the error paths of
    the two handlers, the traceback printed to standard error. *)
Inductive log_record :=
| LogInfo (msg : list log_field)
| LogError (msg : list log_field)
| Traceback (e : exn).

(** The state a handler runs in. [decoder_calls] records the arguments the
    inference decoder was called with, most recent first. *)
Record World := mkWorld {
  fs : FS;
  processing_stats : Stats;
  clock : nat -> Q;
  ticks : nat;
  log : list log_record;
  decoder_calls : list pyval
}.

Definition set_fs (f : FS) (w : World) : World :=
  {| fs := f; processing_stats := processing_stats w; clock := clock w;
     ticks := ticks w; log := log w; decoder_calls := decoder_calls w |}.

Definition set_stats (s : Stats) (w : World) : World :=
  {| fs := fs w; processing_stats := s; clock := clock w;
     ticks := ticks w; log := log w; decoder_calls := decoder_calls w |}.

Definition M (A : Type) : Type := World -> Result A * World.

Definition ret {A} (a : A) : M A := fun w => (Ok a, w).

Definition bind {A B} (m : M A) (k : A -> M B) : M B :=
  fun w =>
    match m w with
    | (Ok a, w') => k a w'
    | (Raise e, w') => (Raise e, w')
    end.

Definition raise {A} (e : exn) : M A := fun w => (Raise e, w).

(** [try: body / except Exception as e: handler e]. *)
Definition try_except {A} (body : M A) (handler : exn -> M A) : M A :=
  fun w =>
    match body w with
    | (Ok a, w') => (Ok a, w')
    | (Raise e, w') => handler e w'
    end.

(** A pure computation that may raise. *)
Definition lift {A} (r : Result A) : M A := fun w => (r, w).

Notation "'call' x <- m ;; k" := (bind m (fun x => k))
  (at level 10, x name, m at level 99, k at level 200, only parsing).
Notation "'exec' m ;; k" := (bind m (fun _ => k))
  (at level 10, m at level 99, k at level 200, only parsing).

(** [time.time()]: the next reading of the clock. *)
Definition time_time : M Q :=
  fun w =>
    (Ok (clock w (ticks w)),
     {| fs := fs w; processing_stats := processing_stats w; clock := clock w;
        ticks := S (ticks w); log := log w;
        decoder_calls := decoder_calls w |}).

Definition add_log (r : log_record) (w : World) : World :=
  {| fs := fs w; processing_stats := processing_stats w; clock := clock w;
     ticks := ticks w; log := r :: log w;
     decoder_calls := decoder_calls w |}.

Definition emit (r : log_record) : M unit := fun w => (Ok tt, add_log r w).

Definition logging_info (msg : list log_field) : M unit := emit (LogInfo msg).
Definition logging_error (msg : list log_field) : M unit := emit (LogError msg).
Definition traceback_print_exc (e : exn) : M unit := emit (Traceback e).

(** [processing_stats[key] += 1] for each of the three counters. *)
Definition bump_images_received (s : Stats) : Stats :=
  {| images_received := images_received s + 1;
     meta_received := meta_received s;
     errors := errors s;
     start_time := start_time s |}.

Definition bump_meta_received (s : Stats) : Stats :=
  {| images_received := images_received s;
     meta_received := meta_received s + 1;
     errors := errors s;
     start_time := start_time s |}.

Definition bump_errors (s : Stats) : Stats :=
  {| images_received := images_received s;
     meta_received := meta_received s;
     errors := errors s + 1;
     start_time := start_time s |}.

Definition update_stats (f : Stats -> Stats) : M unit :=
  fun w => (Ok tt, set_stats (f (processing_stats w)) w).

Definition incr_images_received : M unit := update_stats bump_images_received.
Definition incr_meta_received : M unit := update_stats bump_meta_received.
Definition incr_errors : M unit := update_stats bump_errors.

(** [file_dir.mkdir(parents=True, exist_ok=True)]. *)
Definition Path_mkdir (p : Path) : M unit :=
  fun w => let '(r, f) := Fs.mkdir p (fs w) in (r, set_fs f w).

(** [async with aiofiles.open(p, mode) as f: await f.write(data)]: the
    file is opened (created or emptied), the data written, the file
    closed. *)
Definition open_and_write (p : Path) (data : list byte) : M unit :=
  fun w =>
    match Fs.open_trunc p (fs w) with
    | Ok (loc, f) => (Ok tt, set_fs (Fs.write loc data f) w)
    | Raise e => (Raise e, w)
    end.

(** [int(x)] on a float: truncation towards zero. *)
Definition int_of_Q (x : Q) : Z := Z.quot (Qnum x) (Z.pos (Qden x)).

(** ** Configuration *)

Module Config.
Definition IMAGE_DIR : Path := PurePath.of_string "./image".
Definition META_DIR : Path := PurePath.of_string "./meta".
Definition LOG_DIR : Path := PurePath.of_string "./logs".
End Config.

Definition HTTP_200_OK : Z := 200.
Definition HTTP_500_INTERNAL_SERVER_ERROR : Z := 500.

(** ** The request *)

Record Request := mkRequest {
  body : list byte;
  headers : list (string * string);
  query_params : list (string * string)
}.

(** [request.headers.get(name, default)]: header names compare without
    case; the first match is returned. *)
Fixpoint headers_get (h : list (string * string)) (name dflt : string)
  : string :=
  match h with
  | [] => dflt
  | (k, v) :: r =>
      if String.eqb (PyStr.lower k) (PyStr.lower name) then v
      else headers_get r name dflt
  end.

(** [request.query_params[name]] when [name in request.query_params]: the
    last value given for the name. *)
Fixpoint query_get (q : list (string * string)) (name : string)
  : option string :=
  match q with
  | [] => None
  | (k, v) :: r =>
      match query_get r name with
      | Some v' => Some v'
      | None => if String.eqb k name then Some v else None
      end
  end.

(** ** The external capabilities *)

(** [json.loads] on the request body, [json.dumps(_, ensure_ascii=False,
    indent=None)], and [DeserializeUtil().get_deserialize_data], the
    decoder of the [Desilialize] module; constructing the
    [DeserializeUtil] object is taken to have no effect. *)
Class Env := {
  json_loads : list byte -> Result pyval;
  json_dumps : pyval -> Result string;
  get_deserialize_data : pyval -> Result pyval
}.

(** The decoder call, recorded in the state. *)
Definition call_decoder `{Env} (x : pyval) : M pyval :=
  fun w =>
    (get_deserialize_data x,
     {| fs := fs w; processing_stats := processing_stats w; clock := clock w;
        ticks := ticks w; log := log w;
        decoder_calls := x :: decoder_calls w |}).

(** ** Path resolution (the first lines of both save routines) *)

(** Lines 76-78 and 107-109: the segments of the request path, split into
    the directories and the file name. *)
Definition split_path (path : string) : list string * string :=
  let path_parts := PyStr.split "/" path in
  let filename := list_last path_parts in
  let subdirs :=
    if (1 <? length path_parts)%nat then list_init path_parts else [] in
  (subdirs, filename).

(** Lines 81-83 and 112-114: [for subdir in subdirs: file_dir = file_dir /
    subdir]. *)
Definition build_dir (root : Path) (subdirs : list string) : Path :=
  fold_left PurePath.truediv subdirs root.

(** Lines 120-123: the extension of a metadata file name. *)
Definition meta_filename (filename : string) : string :=
  if PyStr.endswith filename ".txt" then PyStr.slice_to_neg 4 filename +:+ ".json"
  else if negb (PyStr.endswith filename ".json") then filename +:+ ".json"
  else filename.

(** [file_dir] of [save_image_file] and of [save_meta_file]. *)
Definition image_dir (path : string) : Path :=
  build_dir Config.IMAGE_DIR (fst (split_path path)).

Definition meta_dir (path : string) : Path :=
  build_dir Config.META_DIR (fst (split_path path)).

(** [file_path] of [save_image_file]. *)
Definition image_file_path (path : string) : Path :=
  let '(subdirs, filename) := split_path path in
  PurePath.truediv (build_dir Config.IMAGE_DIR subdirs) filename.

(** [file_path] of [save_meta_file]. *)
Definition meta_file_path (path : string) : Path :=
  let '(subdirs, filename) := split_path path in
  PurePath.truediv (build_dir Config.META_DIR subdirs) (meta_filename filename).

(** ** The save routines *)

Definition save_image_file (path : string) (content : list byte) : M string :=
  try_except
    (let '(subdirs, filename) := split_path path in
     let file_dir := build_dir Config.IMAGE_DIR subdirs in
     exec Path_mkdir file_dir ;;
     let file_path := PurePath.truediv file_dir filename in
     exec open_and_write file_path content ;;
     exec incr_images_received ;;
     ret (PurePath.str file_path))
    (fun e =>
       exec incr_errors ;;
       exec logging_error [LText "Error saving image file "; LText path;
                      LText ": "; LText (str_exn e)] ;;
       raise e).

Definition save_meta_file `{Env} (path : string) (content : pyval) : M string :=
  try_except
    (let '(subdirs, filename) := split_path path in
     let file_dir := build_dir Config.META_DIR subdirs in
     exec Path_mkdir file_dir ;;
     let filename := meta_filename filename in
     let file_path := PurePath.truediv file_dir filename in
     call json_str <- lift (json_dumps content) ;;
     exec open_and_write file_path (list_byte_of_string json_str) ;;
     exec incr_meta_received ;;
     ret (PurePath.str file_path))
    (fun e =>
       exec incr_errors ;;
       exec logging_error [LText "Error saving meta file "; LText path;
                      LText ": "; LText (str_exn e)] ;;
       raise e).

(** ** The handlers *)

(** The device named in the log line of [update_image]. *)
Definition image_device_id (path : string) (request : Request) : string :=
  let path_parts := PyStr.split "/" path in
  if (1 <? length path_parts)%nat then List.hd "unknown" path_parts
  else
    let device_id := headers_get (headers request) "X-Device-ID" "unknown" in
    match query_get (query_params request) "DeviceID" with
    | Some v => v
    | None => device_id
    end.

Definition process_time_ms (start_time now : Q) : Z :=
  int_of_Q ((now - start_time) * 1000)%Q.

(** [PUT /image/{path:path}]. *)
Definition update_image (path : string) (request : Request) : M pyval :=
  call start_time <- time_time ;;
  try_except
    (let content := body request in
     let device_id := image_device_id path request in
     call file_path <- save_image_file path content ;;
     call now <- time_time ;;
     exec logging_info [LText "Image saved: "; LText path; LText " to ";
                   LText file_path; LText " in ";
                   LSeconds (now - start_time)%Q; LText "s [Device: ";
                   LText device_id; LText "]"] ;;
     ret (PyDict [("status", PyInt HTTP_200_OK);
                  ("file_path", PyString file_path);
                  ("process_time_ms", PyInt (process_time_ms start_time now))]))
    (fun e =>
       call now <- time_time ;;
       exec logging_error [LText "Error handling image update for "; LText path;
                      LText ": "; LText (str_exn e)] ;;
       exec traceback_print_exc e ;;
       ret (PyDict [("status", PyInt HTTP_500_INTERNAL_SERVER_ERROR);
                    ("error", PyString (str_exn e));
                    ("process_time_ms", PyInt (process_time_ms start_time now))])).

(** Lines 194-200: the inference result of the first inference, decoded
    and stored in the record. *)
Definition enrich `{Env} (contentj : pyval) : M pyval :=
  call inferences <- lift (PyVal.get contentj "Inferences" (PyList [])) ;;
  if PyVal.truthy inferences then
    call first <- lift (PyVal.getitem0 inferences) ;;
    call inferenceresult <- lift (PyVal.get first "O" (PyString EmptyString)) ;;
    call deserialize_data <- call_decoder inferenceresult ;;
    lift (PyVal.setitem contentj "DeserializedData" deserialize_data)
  else ret contentj.

(** [PUT /meta/{path:path}]. *)
Definition update_inference_result `{Env} (path : string) (request : Request)
  : M pyval :=
  call start_time <- time_time ;;
  try_except
    (let content := body request in
     call contentj <- lift (json_loads content) ;;
     call device_id <- lift (PyVal.get contentj "DeviceID" (PyString "unknown")) ;;
     call contentj <- enrich contentj ;;
     call file_path <- save_meta_file path contentj ;;
     call now <- time_time ;;
     exec logging_info [LText "Meta saved: "; LText path; LText " to ";
                   LText file_path; LText " in ";
                   LSeconds (now - start_time)%Q; LText "s [Device: ";
                   LValue device_id; LText "]"] ;;
     ret (PyDict [("status", PyInt HTTP_200_OK);
                  ("file_path", PyString file_path);
                  ("process_time_ms", PyInt (process_time_ms start_time now))]))
    (fun e =>
       call now <- time_time ;;
       exec logging_error [LText "Error handling meta update for "; LText path;
                      LText ": "; LText (str_exn e)] ;;
       exec traceback_print_exc e ;;
       ret (PyDict [("status", PyInt HTTP_500_INTERNAL_SERVER_ERROR);
                    ("error", PyString (str_exn e));
                    ("process_time_ms", PyInt (process_time_ms start_time now))])).

(** ** The HTTP boundary *)





(** ** Vocabulary of the statements *)

(** A segment that names a directory entry of its own: not empty, not [.],
    not [..], and without a NUL character. *)
Definition plain (seg : string) : bool :=
  negb (String.eqb seg EmptyString) && negb (String.eqb seg ".")
  && negb (String.eqb seg "..") && negb (PyStr.contains_char "000"%char seg).

(** The canonical location of a path read from the directory [base],
    whatever the filesystem holds: [..] steps back, lexically. *)
Definition abspath (base : list string) (p : Path) : list string :=
  fold_left Fs.step (parts p) (if absolute p then [] else base).

(** [loc] is [root] or lies below it. *)
Definition under (root loc : list string) : Prop := root `prefix_of` loc.

(** The body of a response reports success. *)
Definition reports_success (d : pyval) : bool :=
  match d with
  | PyDict (("status", PyInt 200) :: _) => true
  | _ => false
  end.


(** ** A reference environment

    A JSON reader and writer for the fragment without floats and without
    [\u] escapes, in the layout of [json.dumps] with its default
    separators, and a sample decoder. The reader's errors name the kind
    of a [json.JSONDecodeError], without the position. The theorems below
    hold for every environment; this one lets them be run on concrete
    requests. *)

Module Ref.

Definition dquote : ascii := "034".

(** A JSON text written with ['] for the double quote. *)
Fixpoint json_text (s : string) : string :=
  match s with
  | EmptyString => EmptyString
  | String c r => String (if Ascii.eqb c "'" then dquote else c) (json_text r)
  end.

Definition is_ws (c : ascii) : bool :=
  Ascii.eqb c " " || Ascii.eqb c "009" || Ascii.eqb c "010" || Ascii.eqb c "013".

Fixpoint skip_ws (s : list ascii) : list ascii :=
  match s with
  | c :: r => if is_ws c then skip_ws r else s
  | [] => []
  end.

Definition digit_of (c : ascii) : option Z :=
  let n := Z.of_nat (nat_of_ascii c) in
  if (48 <=? n) && (n <=? 57) then Some (n - 48) else None.

Fixpoint read_digits (acc : Z) (s : list ascii) : Z * list ascii :=
  match s with
  | c :: r =>
      match digit_of c with
      | Some d => read_digits (10 * acc + d) r
      | None => (acc, s)
      end
  | [] => (acc, [])
  end.

(** The characters of a string literal, after its opening quote. *)
Fixpoint read_string (s : list ascii) : option (string * list ascii) :=
  match s with
  | [] => None
  | c :: r =>
      if Ascii.eqb c dquote then Some (EmptyString, r)
      else if Ascii.eqb c "\" then
        match r with
        | e :: r' =>
            let plain (x : ascii) :=
              match read_string r' with
              | Some (t, rest) => Some (String x t, rest)
              | None => None
              end in
            if Ascii.eqb e dquote then plain dquote
            else if Ascii.eqb e "\" then plain "\"%char
            else if Ascii.eqb e "/" then plain "/"%char
            else if Ascii.eqb e "n" then plain "010"%char
            else if Ascii.eqb e "t" then plain "009"%char
            else if Ascii.eqb e "r" then plain "013"%char
            else None
        | [] => None
        end
      else if (nat_of_ascii c <? 32)%nat then None
      else match read_string r with
           | Some (t, rest) => Some (String c t, rest)
           | None => None
           end
  end.

Definition starts (lit : string) (s : list ascii) : option (list ascii) :=
  let l := list_ascii_of_string lit in
  if String.eqb (string_of_list_ascii (firstn (length l) s)) lit
  then Some (skipn (length l) s) else None.

Inductive mode :=
| MValue
| MElems (acc : list pyval)
| MMembers (acc : list (string * pyval)).

Fixpoint parse (fuel : nat) (m : mode) (s : list ascii)
  : option (pyval * list ascii) :=
  match fuel with
  | O => None
  | S fuel' =>
      match m with
      | MValue =>
          match skip_ws s with
          | [] => None
          | c :: r =>
              if Ascii.eqb c dquote then
                match read_string r with
                | Some (t, rest) => Some (PyString t, rest)
                | None => None
                end
              else if Ascii.eqb c "[" then
                match skip_ws r with
                | c' :: r' =>
                    if Ascii.eqb c' "]" then Some (PyList [], r')
                    else parse fuel' (MElems []) r
                | [] => None
                end
              else if Ascii.eqb c "{" then
                match skip_ws r with
                | c' :: r' =>
                    if Ascii.eqb c' "}" then Some (PyDict [], r')
                    else parse fuel' (MMembers []) r
                | [] => None
                end
              else if Ascii.eqb c "-" then
                match r with
                | d :: _ =>
                    match digit_of d with
                    | Some _ =>
                        let '(n, rest) := read_digits 0 r in
                        Some (PyInt (- n), rest)
                    | None => None
                    end
                | [] => None
                end
              else
                match digit_of c with
                | Some _ =>
                    let '(n, rest) := read_digits 0 (c :: r) in
                    Some (PyInt n, rest)
                | None =>
                    match starts "null" (c :: r) with
                    | Some rest => Some (PyNone, rest)
                    | None =>
                        match starts "true" (c :: r) with
                        | Some rest => Some (PyBool true, rest)
                        | None =>
                            match starts "false" (c :: r) with
                            | Some rest => Some (PyBool false, rest)
                            | None => None
                            end
                        end
                    end
                end
          end
      | MElems acc =>
          match parse fuel' MValue s with
          | Some (v, rest) =>
              match skip_ws rest with
              | c :: r =>
                  if Ascii.eqb c "," then parse fuel' (MElems (v :: acc)) r
                  else if Ascii.eqb c "]" then Some (PyList (rev (v :: acc)), r)
                  else None
              | [] => None
              end
          | None => None
          end
      | MMembers acc =>
          match skip_ws s with
          | c :: r =>
              if Ascii.eqb c dquote then
                match read_string r with
                | Some (k, rest) =>
                    match skip_ws rest with
                    | c1 :: r1 =>
                        if Ascii.eqb c1 ":" then
                          match parse fuel' MValue r1 with
                          | Some (v, rest') =>
                              let acc' := PyVal.dict_set k v acc in
                              match skip_ws rest' with
                              | c2 :: r2 =>
                                  if Ascii.eqb c2 ","
                                  then parse fuel' (MMembers acc') r2
                                  else if Ascii.eqb c2 "}"
                                  then Some (PyDict acc', r2)
                                  else None
                              | [] => None
                              end
                          | None => None
                          end
                        else None
                    | [] => None
                    end
                | None => None
                end
              else None
          | [] => None
          end
      end
  end.

(** A float ([.], [e], [E] after the digits) is outside the fragment. *)
Definition loads (b : list byte) : Result pyval :=
  let s := list_ascii_of_string (string_of_list_byte b) in
  match parse (S (length s)) MValue s with
  | Some (v, rest) =>
      match skip_ws rest with
      | [] => Ok v
      | _ => Raise (ValueError "Extra data")
      end
  | None => Raise (ValueError "Expecting value")
  end.

Fixpoint escape (s : string) : string :=
  match s with
  | EmptyString => EmptyString
  | String c r =>
      if Ascii.eqb c dquote then String "\" (String dquote (escape r))
      else if Ascii.eqb c "\" then "\\" +:+ escape r
      else if Ascii.eqb c "010" then "\n" +:+ escape r
      else if Ascii.eqb c "009" then "\t" +:+ escape r
      else if Ascii.eqb c "013" then "\r" +:+ escape r
      else String c (escape r)
  end.

Definition quote (s : string) : string :=
  String dquote (escape s +:+ String dquote EmptyString).

Definition decimal (z : Z) : string := NilZero.string_of_int (Z.to_int z).

Fixpoint serializable (v : pyval) : bool :=
  match v with
  | PyObj _ => false
  | PyList l => forallb serializable l
  | PyDict d => forallb (fun kv => serializable (snd kv)) d
  | _ => true
  end.

Fixpoint render (v : pyval) : string :=
  match v with
  | PyNone => "null"
  | PyBool true => "true"
  | PyBool false => "false"
  | PyInt z => decimal z
  | PyFloat r => r
  | PyString s => quote s
  | PyList l => "[" +:+ PyStr.join ", " (List.map render l) +:+ "]"
  | PyDict d =>
      "{" +:+ PyStr.join ", "
                (List.map (fun kv => quote (fst kv) +:+ ": " +:+ render (snd kv)) d)
          +:+ "}"
  | PyObj r => r
  end.

Definition dumps (v : pyval) : Result string :=
  if serializable v then Ok (render v)
  else Raise (TypeError "Object is not JSON serializable").

(** A sample decoder: the payload [{"x": 1}] for the text [ok], a failure
    for anything else. *)
Definition decode (x : pyval) : Result pyval :=
  match x with
  | PyString "ok" => Ok (PyDict [("x", PyInt 1)])
  | _ => Raise (OtherError "DecodeError" "cannot decode inference result")
  end.

#[export] Instance env : Env :=
  {| json_loads := loads; json_dumps := dumps; get_deserialize_data := decode |}.

Definition bytes (s : string) : list byte := list_byte_of_string s.

(** A process started in [/srv/app], after [ensure_directories] created
    the three directories. *)
Definition fs0 : FS :=
  {| cwd := ["srv"; "app"];
     tree := <[ ["srv"; "app"; "logs"] := IDir ]>
            (<[ ["srv"; "app"; "meta"] := IDir ]>
            (<[ ["srv"; "app"; "image"] := IDir ]>
            (<[ ["srv"; "app"] := IDir ]>
            (<[ ["srv"] := IDir ]> ∅)))) |}.

Definition world0 : World :=
  {| fs := fs0;
     processing_stats := {| images_received := 0; meta_received := 0;
                            errors := 0; start_time := 0%Q |};
     clock := fun n => (Z.of_nat n # 100)%Q;
     ticks := 1;
     log := [];
     decoder_calls := [] |}.

Definition request (b : string) : Request :=
  {| body := bytes b; headers := []; query_params := [] |}.

(** The request paths and bodies of the scenarios. *)
Definition frame001 : string := "dev1/2024/frame001.jpg".
Definition result_txt : string := "dev1/2024/result.txt".

Definition bad_inference : string :=
  json_text "{'DeviceID':'dev1','Inferences':[{'O':'bad'}]}".

Definition no_inference : string :=
  json_text "{'DeviceID':'dev1','Inferences':[]}".

End Ref.

(** ** Start-up *)

(** [for x in l: body(x)]; an exception ends the loop. *)
Fixpoint for_each {A : Type} (l : list A) (body : A -> M unit) : M unit :=
  match l with
  | [] => ret tt
  | x :: r => exec body x ;; for_each r body
  end.

(** [ensure_directories] (lines 35-37). *)
Definition ensure_directories : M unit :=
  for_each [Config.IMAGE_DIR; Config.META_DIR; Config.LOG_DIR] Path_mkdir.

(** ** The redirect endpoint *)

(** [s.replace(old, new)] for a non-empty [old], scanning from the left:
    [skip] counts the characters of a match still to pass over. *)
Fixpoint replace_from (old new : string) (skip : nat) (s : string) : string :=
  match s with
  | EmptyString => EmptyString
  | String c s' =>
      match skip with
      | S k => replace_from old new k s'
      | O =>
          if String.prefix old s
          then new +:+ replace_from old new (String.length old - 1) s'
          else String c (replace_from old new 0 s')
      end
  end.

(** With an empty [old], [new] goes before every character and at the
    end. *)
Fixpoint interleave (new : string) (s : string) : string :=
  match s with
  | EmptyString => new
  | String c s' => new +:+ String c (interleave new s')
  end.

(** [s.replace(old, new)]. *)
Definition str_replace (old new s : string) : string :=
  match old with
  | EmptyString => interleave new s
  | _ => replace_from old new 0 s
  end.

(** [pat in s]. *)
Fixpoint occurs (pat s : string) : bool :=
  String.prefix pat s
  || match s with
     | EmptyString => false
     | String _ s' => occurs pat s'
     end.

(** [GET /redirect-https] (lines 224-227); [url] is [str(request.url)]. *)
Definition redirect_https (url : string) : M pyval :=
  let https_url := str_replace "http://" "https://" url in
  ret (PyDict [("redirect", PyString https_url)]).

(** ** The status endpoint *)

(** [loc] without the leading [root], when it starts with it. *)
Fixpoint strip_root (root loc : list string) : option (list string) :=
  match root, loc with
  | [], _ => Some loc
  | r :: root', l :: loc' =>
      if String.eqb r l then strip_root root' loc' else None
  | _ :: _, [] => None
  end.

(** [cur] and the directories [comps] below it all are directories. *)
Fixpoint all_dirs (t : gmap (list string) inode) (cur comps : list string)
  : bool :=
  match Fs.node_at t cur with
  | Some IDir =>
      match comps with
      | [] => true
      | c :: r => all_dirs t (cur ++ [c]) r
      end
  | _ => false
  end.

(** [loc] is among [root.glob('**/*')]: it lies below [root], and [root]
    and every directory between the two can be listed. *)
Definition globbed (t : gmap (list string) inode) (root loc : list string)
  : bool :=
  match strip_root root loc with
  | Some (c :: rest) => all_dirs t root (List.removelast (c :: rest))
  | _ => false
  end.

(** [f.stat().st_size] of the entries with [f.is_file()]. *)
Definition st_size (n : inode) : option nat :=
  match n with
  | IFile data => Some (length data)
  | IDir => None
  end.

(** The sizes of the regular files among [root.glob('**/*')]. *)
Definition file_sizes (t : gmap (list string) inode) (root : list string)
  : gmap (list string) nat :=
  omap st_size (filter (fun kv => globbed t root kv.1 = true) t).

Definition map_total (m : gmap (list string) nat) : nat :=
  map_fold (fun _ v acc => (v + acc)%nat) 0%nat m.

(** [sum(f.stat().st_size for f in p.glob('**/*') if f.is_file())]. *)
Definition disk_usage (p : Path) (f : FS) : Z :=
  match Fs.locate p f with
  | Some root => Z.of_nat (map_total (file_sizes (tree f) root))
  | None => 0
  end.

(** [divmod(x, y)] on the idealised floats, for a positive [y]. *)
Definition divmod (x y : Q) : Q * Q :=
  let q := inject_Z (Qfloor (x / y)) in (q, (x - q * y)%Q).

(** [f"{n:02}"]. *)
Definition format_02 (n : Z) : string :=
  let digits := NilZero.string_of_int (Z.to_int n) in
  if (String.length digits <? 2)%nat then "0" +:+ digits else digits.

(** [GET /status] (lines 230-254). *)
Definition get_status : M pyval :=
  call now <- time_time ;;
  fun w =>
    let stats := processing_stats w in
    let uptime := (now - start_time stats)%Q in
    let '(hours, remainder) := divmod uptime 3600 in
    let '(minutes, seconds) := divmod remainder 60 in
    let image_size := disk_usage Config.IMAGE_DIR (fs w) in
    let meta_size := disk_usage Config.META_DIR (fs w) in
    (Ok (PyDict
           [("status", PyString "running");
            ("uptime", PyString (format_02 (int_of_Q hours) +:+ ":"
                                 +:+ format_02 (int_of_Q minutes) +:+ ":"
                                 +:+ format_02 (int_of_Q seconds)));
            ("uptime_seconds", PyInt (int_of_Q uptime));
            ("images_received", PyInt (images_received stats));
            ("meta_received", PyInt (meta_received stats));
            ("errors", PyInt (errors stats));
            ("image_dir", PyString (PurePath.str Config.IMAGE_DIR));
            ("meta_dir", PyString (PurePath.str Config.META_DIR));
            ("disk_usage_bytes",
             PyDict [("images", PyInt image_size);
                     ("meta", PyInt meta_size);
                     ("total", PyInt (image_size + meta_size))])]),
     w).

(** A filesystem in which the working directory is a directory and every
    entry sits in a directory. *)
Definition well_formed (f : FS) : Prop :=
  Fs.node_at (tree f) (cwd f) = Some IDir
  /\ forall loc n, tree f !! loc = Some n ->
                   loc <> []
                   /\ Fs.node_at (tree f) (List.removelast loc) = Some IDir.


(** ** More scenarios *)

Module Scenario.

(** The process before [ensure_directories] has run. *)
Definition bare_world : World :=
  set_fs {| cwd := ["srv"; "app"];
            tree := <[ ["srv"; "app"] := IDir ]> (<[ ["srv"] := IDir ]> ∅) |}
         Ref.world0.

(** A record with one inference that the sample decoder accepts. *)
Definition good_inference : string :=
  Ref.json_text "{'DeviceID':'dev1','Inferences':[{'O':'ok'}]}".


End Scenario.

(** * Properties *)

(** ** Strings *)

Section StringFacts.

Lemma app_cons (c : ascii) (a b : string) :
  String c a +:+ b = String c (a +:+ b).
Proof. reflexivity. Qed.

Lemma string_length_app (a b : string) :
  String.length (a +:+ b) = (String.length a + String.length b)%nat.
Proof.
  induction a as [|c a IH]; [reflexivity|].
  rewrite app_cons. simpl. now rewrite IH.
Qed.

Lemma drop_app (a b : string) (k : nat) :
  PyStr.drop (String.length a + k) (a +:+ b) = PyStr.drop k b.
Proof.
  induction a as [|c a IH]; [reflexivity|].
  rewrite app_cons. exact IH.
Qed.

Lemma take_app (a b : string) :
  PyStr.take (String.length a) (a +:+ b) = a.
Proof.
  induction a as [|c a IH]; [now destruct b|].
  rewrite app_cons. simpl. now rewrite IH.
Qed.

Lemma take_drop (n : nat) (s : string) :
  PyStr.take n s +:+ PyStr.drop n s = s.
Proof.
  revert s; induction n as [|n IH]; intros [|c s]; try reflexivity.
  simpl. rewrite app_cons. now rewrite IH.
Qed.

Lemma endswith_app (a suffix : string) :
  PyStr.endswith (a +:+ suffix) suffix = true.
Proof.
  unfold PyStr.endswith. rewrite string_length_app.
  replace (String.length a + String.length suffix - String.length suffix)%nat
    with (String.length a + 0)%nat by lia.
  rewrite drop_app. simpl. rewrite String.eqb_refl.
  rewrite andb_true_r. apply Nat.leb_le. lia.
Qed.

Lemma endswith_inv (s suffix : string) :
  PyStr.endswith s suffix = true ->
  s = PyStr.slice_to_neg (String.length suffix) s +:+ suffix.
Proof.
  unfold PyStr.endswith, PyStr.slice_to_neg.
  intros [_ E]%andb_true_iff. apply String.eqb_eq in E.
  rewrite <- (take_drop (String.length s - String.length suffix) s) at 1.
  now rewrite E.
Qed.

Lemma endswith_json_not_txt (a : string) :
  PyStr.endswith (a +:+ ".json") ".txt" = false.
Proof.
  unfold PyStr.endswith. rewrite string_length_app. simpl String.length.
  replace (String.length a + 5 - 4)%nat with (String.length a + 1)%nat by lia.
  rewrite drop_app. simpl. apply andb_false_r.
Qed.

Lemma meta_filename_fixed (a : string) :
  meta_filename (a +:+ ".json") = a +:+ ".json".
Proof.
  unfold meta_filename.
  now rewrite endswith_json_not_txt, endswith_app.
Qed.

Lemma meta_filename_txt (stem : string) :
  meta_filename (stem +:+ ".txt") = stem +:+ ".json".
Proof.
  unfold meta_filename, PyStr.slice_to_neg.
  rewrite endswith_app, string_length_app. simpl String.length.
  replace (String.length stem + 4 - 4)%nat with (String.length stem) by lia.
  now rewrite take_app.
Qed.

Lemma meta_filename_json (name : string) :
  PyStr.endswith name ".json" = true -> meta_filename name = name.
Proof.
  intros H. rewrite (endswith_inv _ _ H). apply meta_filename_fixed.
Qed.

Lemma meta_filename_shape (name : string) :
  exists stem, meta_filename name = stem +:+ ".json".
Proof.
  unfold meta_filename.
  destruct (PyStr.endswith name ".txt") eqn:Htxt; [eauto|].
  destruct (PyStr.endswith name ".json") eqn:Hj; simpl; [|eauto].
  eexists. apply (endswith_inv _ _ Hj).
Qed.

End StringFacts.

(** ** Extension of a metadata file name *)

(** C7. The three cases of the extension rule, read in the order the code
    tests them: a name that ends in [.txt] has that suffix replaced by
    [.json]; otherwise a name that does not end in [.json] gets [.json]
    appended; a name that ends in [.json] is kept as it is. Every name
    falls under one of the three. *)
Theorem meta_filename_cases :
  (forall stem, meta_filename (stem +:+ ".txt") = stem +:+ ".json")
  /\ (forall name,
        PyStr.endswith name ".txt" = false ->
        PyStr.endswith name ".json" = false ->
        meta_filename name = name +:+ ".json")
  /\ (forall name,
        PyStr.endswith name ".json" = true -> meta_filename name = name)
  /\ (forall name,
        (exists stem, name = stem +:+ ".txt")
        \/ (PyStr.endswith name ".txt" = false
            /\ PyStr.endswith name ".json" = false)
        \/ PyStr.endswith name ".json" = true).
Proof.
  split; [apply meta_filename_txt|].
  split; [intros name Htxt Hjson; unfold meta_filename; now rewrite Htxt, Hjson|].
  split; [apply meta_filename_json|].
  intros name. destruct (PyStr.endswith name ".txt") eqn:Htxt.
  - left. eexists. apply (endswith_inv _ _ Htxt).
  - destruct (PyStr.endswith name ".json"); auto.
Qed.

(** C8. Normalising the extension twice is the same as normalising it
    once; a name that ends in [.json] is its own normal form, and a name
    [stem.txt] always becomes [stem.json]. *)
Theorem meta_filename_idempotent :
  (forall name, meta_filename (meta_filename name) = meta_filename name)
  /\ (forall name,
        PyStr.endswith name ".json" = true -> meta_filename name = name)
  /\ (forall stem, meta_filename (stem +:+ ".txt") = stem +:+ ".json").
Proof.
  split; [|split; [apply meta_filename_json | apply meta_filename_txt]].
  intros name. destruct (meta_filename_shape name) as [stem ->].
  apply meta_filename_fixed.
Qed.

(** ** The save routines, step by step *)

Section SaveRoutines.

Context `{E : Env}.

(** What [save_image_file] does, by the outcome of its two filesystem
    steps. *)
Lemma save_image_file_run (path : string) (data : list byte) (w : World) :
  save_image_file path data w =
  let failed e w1 :=
    (Raise e,
     add_log (LogError [LText "Error saving image file "; LText path;
                        LText ": "; LText (str_exn e)])
       (set_stats (bump_errors (processing_stats w)) w1)) in
  match Fs.mkdir (image_dir path) (fs w) with
  | (Raise e, f1) => failed e (set_fs f1 w)
  | (Ok _, f1) =>
      match Fs.open_trunc (image_file_path path) f1 with
      | Raise e => failed e (set_fs f1 w)
      | Ok (loc, f2) =>
          (Ok (PurePath.str (image_file_path path)),
           set_stats (bump_images_received (processing_stats w))
             (set_fs (Fs.write loc data f2) w))
      end
  end.
Proof.
  unfold save_image_file, image_file_path, image_dir, try_except, bind,
    Path_mkdir, open_and_write.
  destruct (split_path path) as [subdirs filename]; simpl.
  destruct (Fs.mkdir _ (fs w)) as [[[]|e] f1]; [|reflexivity]. simpl.
  destruct (Fs.open_trunc _ f1) as [[loc f2]|e]; reflexivity.
Qed.

Lemma save_meta_file_run (path : string) (record : pyval) (w : World) :
  save_meta_file path record w =
  let failed e w1 :=
    (Raise e,
     add_log (LogError [LText "Error saving meta file "; LText path;
                        LText ": "; LText (str_exn e)])
       (set_stats (bump_errors (processing_stats w)) w1)) in
  match Fs.mkdir (meta_dir path) (fs w) with
  | (Raise e, f1) => failed e (set_fs f1 w)
  | (Ok _, f1) =>
      match json_dumps record with
      | Raise e => failed e (set_fs f1 w)
      | Ok json_str =>
          match Fs.open_trunc (meta_file_path path) f1 with
          | Raise e => failed e (set_fs f1 w)
          | Ok (loc, f2) =>
              (Ok (PurePath.str (meta_file_path path)),
               set_stats (bump_meta_received (processing_stats w))
                 (set_fs (Fs.write loc (list_byte_of_string json_str) f2) w))
          end
      end
  end.
Proof.
  unfold save_meta_file, meta_file_path, meta_dir, try_except, bind,
    Path_mkdir, open_and_write, lift.
  destruct (split_path path) as [subdirs filename]; simpl.
  destruct (Fs.mkdir _ (fs w)) as [[[]|e] f1]; [|reflexivity]. simpl.
  destruct (json_dumps record) as [json_str|e]; [|reflexivity]. simpl.
  destruct (Fs.open_trunc _ f1) as [[loc f2]|e]; reflexivity.
Qed.

(** A successful image save, read backwards. *)
Lemma save_image_file_ok (path : string) (data : list byte) (w w' : World)
  (p : string) :
  save_image_file path data w = (Ok p, w') ->
  exists f1 loc f2,
    Fs.mkdir (image_dir path) (fs w) = (Ok tt, f1)
    /\ Fs.open_trunc (image_file_path path) f1 = Ok (loc, f2)
    /\ p = PurePath.str (image_file_path path)
    /\ w' = set_stats (bump_images_received (processing_stats w))
              (set_fs (Fs.write loc data f2) w).
Proof.
  rewrite save_image_file_run. cbv zeta.
  destruct (Fs.mkdir _ (fs w)) as [[[]|e] f1] eqn:Hmk; [|discriminate].
  destruct (Fs.open_trunc _ f1) as [[loc f2]|e] eqn:Hop; [|discriminate].
  intros [= <- <-]. exists f1, loc, f2. repeat split; assumption || reflexivity.
Qed.

Lemma save_meta_file_ok (path : string) (record : pyval) (w w' : World)
  (p : string) :
  save_meta_file path record w = (Ok p, w') ->
  exists f1 json_str loc f2,
    Fs.mkdir (meta_dir path) (fs w) = (Ok tt, f1)
    /\ json_dumps record = Ok json_str
    /\ Fs.open_trunc (meta_file_path path) f1 = Ok (loc, f2)
    /\ p = PurePath.str (meta_file_path path)
    /\ w' = set_stats (bump_meta_received (processing_stats w))
              (set_fs (Fs.write loc (list_byte_of_string json_str) f2) w).
Proof.
  rewrite save_meta_file_run. cbv zeta.
  destruct (Fs.mkdir _ (fs w)) as [[[]|e] f1] eqn:Hmk; [|discriminate].
  destruct (json_dumps record) as [json_str|e] eqn:Hd; [|discriminate].
  destruct (Fs.open_trunc _ f1) as [[loc f2]|e] eqn:Hop; [|discriminate].
  intros [= <- <-]. exists f1, json_str, loc, f2. repeat split; assumption || reflexivity.
Qed.

End SaveRoutines.

(** ** The filesystem: walking, opening, writing, reading *)

Section FsFacts.

Implicit Types (t : gmap (list string) inode) (cur loc d : list string).

Lemma node_at_nonempty t loc c :
  Fs.node_at t (loc ++ [c]) = t !! (loc ++ [c]).
Proof. now destruct loc. Qed.

Lemma walk_app t cur (a b : list string) :
  Fs.walk t cur (a ++ b) =
  match Fs.walk t cur a with
  | inl d => Fs.walk t d b
  | inr k => inr k
  end.
Proof.
  revert cur; induction a as [|c a IH]; intros cur; simpl; [reflexivity|].
  destruct (Fs.node_at t (Fs.step cur c)) as [[|data]|]; auto.
Qed.

(** An entry put where no directory was does not disturb a walk. *)
Lemma walk_insert t cur (comps : list string) d loc (x : inode) :
  Fs.node_at t loc <> Some IDir ->
  Fs.walk t cur comps = inl d ->
  Fs.walk (<[loc := x]> t) cur comps = inl d.
Proof.
  intros Hloc. revert cur; induction comps as [|c comps IH]; intros cur;
    simpl; [auto|].
  destruct (Fs.node_at t (Fs.step cur c)) as [[|data]|] eqn:Hn;
    try discriminate.
  intros Hw.
  assert (Fs.node_at (<[loc := x]> t) (Fs.step cur c) = Some IDir) as ->.
  { destruct (Fs.step cur c) as [|s l] eqn:Hs; [reflexivity|].
    simpl in *. rewrite lookup_insert_ne; [assumption|].
    intros ->. apply Hloc. now rewrite <- Hn. }
  now apply IH.
Qed.

Lemma locate_nonempty (p : Path) (f : FS) :
  parts p <> [] ->
  Fs.locate p f =
  match Fs.walk (tree f) (Fs.start f p) (List.removelast (parts p)) with
  | inr _ => None
  | inl d => Some (Fs.step d (List.last (parts p) EmptyString))
  end.
Proof. unfold Fs.locate. now destruct (parts p). Qed.

(** What a successful [open] tells. *)
Lemma open_trunc_ok (p : Path) (f f2 : FS) loc :
  Fs.open_trunc p f = Ok (loc, f2) ->
  exists d c,
    parts p <> []
    /\ Fs.walk (tree f) (Fs.start f p) (List.removelast (parts p)) = inl d
    /\ c = List.last (parts p) EmptyString
    /\ String.eqb c ".." = false
    /\ loc = d ++ [c]
    /\ Fs.node_at (tree f) loc <> Some IDir
    /\ f2 = {| cwd := cwd f; tree := <[loc := IFile []]> (tree f) |}.
Proof.
  unfold Fs.open_trunc.
  destruct (Fs.has_nul p); [discriminate|].
  destruct (parts p) as [|s l] eqn:Hp; [discriminate|].
  destruct (Fs.walk _ _ _) as [d|k] eqn:Hw; [|discriminate].
  remember (List.last (s :: l) EmptyString) as c eqn:Hlast.
  destruct (String.eqb c "..") eqn:Hc; [discriminate|].
  destruct (Fs.node_at (tree f) _) as [[|data]|] eqn:Hn; try discriminate;
    intros [= <- <-]; exists d, c;
    repeat split; auto; congruence.
Qed.

(** After [open] and [write], the path names a file that holds exactly the
    data written. *)
Lemma read_after_write (p : Path) (f f2 : FS) loc (data : list byte) :
  Fs.open_trunc p f = Ok (loc, f2) ->
  Fs.locate p (Fs.write loc data f2) = Some loc
  /\ Fs.read p (Fs.write loc data f2) = Some data
  /\ Fs.write loc data f2
     = {| cwd := cwd f; tree := <[loc := IFile data]> (tree f) |}.
Proof.
  intros (d & c & Hp & Hw & Hc & Hdd & -> & Hn & ->)%open_trunc_ok.
  assert (Hwr : Fs.write (d ++ [c]) data
                  {| cwd := cwd f; tree := <[d ++ [c] := IFile []]> (tree f) |}
                = {| cwd := cwd f; tree := <[d ++ [c] := IFile data]> (tree f) |}).
  { unfold Fs.write; simpl. rewrite lookup_insert_eq.
    now rewrite insert_insert_eq. }
  rewrite Hwr.
  assert (Hloc : Fs.locate p
                   {| cwd := cwd f; tree := <[d ++ [c] := IFile data]> (tree f) |}
                 = Some (d ++ [c])).
  { rewrite (locate_nonempty _ _ Hp), <- Hc.
    unfold Fs.start in *; cbn [tree cwd].
    rewrite (walk_insert _ _ _ d _ _ Hn Hw).
    unfold Fs.step. now rewrite Hdd. }
  repeat split; [assumption|].
  unfold Fs.read. rewrite Hloc. simpl.
  rewrite node_at_nonempty. now rewrite lookup_insert_eq.
Qed.

End FsFacts.

(** ** Counters and overwriting *)

Section SaveFacts.

Context `{E : Env}.

(** C10. A successful image save adds one to [images_received] and leaves
    [meta_received] and [errors] as they were; a successful metadata save
    adds one to [meta_received] and leaves [images_received] and [errors]
    as they were. *)
Theorem successful_save_counts_once :
  (forall path data w p w',
      save_image_file path data w = (Ok p, w') ->
      images_received (processing_stats w')
        = images_received (processing_stats w) + 1
      /\ meta_received (processing_stats w') = meta_received (processing_stats w)
      /\ errors (processing_stats w') = errors (processing_stats w))
  /\ (forall path record w p w',
        save_meta_file path record w = (Ok p, w') ->
        meta_received (processing_stats w')
          = meta_received (processing_stats w) + 1
        /\ images_received (processing_stats w')
           = images_received (processing_stats w)
        /\ errors (processing_stats w') = errors (processing_stats w)).
Proof.
  split.
  - intros path data w p w' (f1 & loc & f2 & _ & _ & _ & ->)%save_image_file_ok.
    now repeat split.
  - intros path record w p w'
      (f1 & js & loc & f2 & _ & _ & _ & _ & ->)%save_meta_file_ok.
    now repeat split.
Qed.

(** A save routine that fails does count the failure. *)
Lemma failed_save_counts_error :
  (forall path data w e w',
      save_image_file path data w = (Raise e, w') ->
      errors (processing_stats w') = errors (processing_stats w) + 1)
  /\ (forall path record w e w',
        save_meta_file path record w = (Raise e, w') ->
        errors (processing_stats w') = errors (processing_stats w) + 1).
Proof.
  split.
  - intros path data w e w'. rewrite save_image_file_run. cbv zeta.
    destruct (Fs.mkdir _ _) as [[[]|e1] f1]; [|now intros [= <- <-]].
    destruct (Fs.open_trunc _ _) as [[loc f2]|e2]; [discriminate|].
    now intros [= <- <-].
  - intros path record w e w'. rewrite save_meta_file_run. cbv zeta.
    destruct (Fs.mkdir _ _) as [[[]|e1] f1]; [|now intros [= <- <-]].
    destruct (json_dumps _) as [js|e2]; [|now intros [= <- <-]].
    destruct (Fs.open_trunc _ _) as [[loc f2]|e3]; [discriminate|].
    now intros [= <- <-].
Qed.

(** C9. Two successful image writes to the same request path, one after
    the other: both report the same destination, the file holds the first
    payload after the first write and exactly the second payload after the
    second, not the two in a row. *)
Theorem image_write_overwrites (path : string) (A B : list byte)
  (w w1 w2 : World) (p1 p2 : string) :
  save_image_file path A w = (Ok p1, w1) ->
  save_image_file path B w1 = (Ok p2, w2) ->
  p2 = p1
  /\ Fs.read (image_file_path path) (fs w1) = Some A
  /\ Fs.read (image_file_path path) (fs w2) = Some B.
Proof.
  intros (f1 & loc & f2 & _ & Ho & -> & ->)%save_image_file_ok
         (g1 & loc' & g2 & _ & Ho' & -> & ->)%save_image_file_ok.
  split; [reflexivity|]. cbn [fs set_fs set_stats].
  split; [apply (read_after_write _ _ _ _ _ Ho)
         | apply (read_after_write _ _ _ _ _ Ho')].
Qed.

End SaveFacts.

(** ** The handlers at the HTTP boundary *)

Section HandlerFacts.

Context `{E : Env}.


End HandlerFacts.

Section MetadataFacts.

Context `{E : Env}.

Lemma get_dict (d : list (string * pyval)) (k : string) (dflt : pyval) :
  PyVal.get (PyDict d) k dflt = Ok (default dflt (PyVal.dict_lookup k d)).
Proof. reflexivity. Qed.

(** [enrich] on a record whose [Inferences] start with an object. *)
Lemma enrich_first (d : list (string * pyval)) (first : pyval)
  (rest : list pyval) (o : pyval) (w : World) :
  PyVal.dict_lookup "Inferences" d = Some (PyList (first :: rest)) ->
  PyVal.get first "O" (PyString EmptyString) = Ok o ->
  enrich (PyDict d) w =
  match get_deserialize_data o with
  | Ok data =>
      (Ok (PyDict (PyVal.dict_set "DeserializedData" data d)),
       snd (call_decoder o w))
  | Raise e => (Raise e, snd (call_decoder o w))
  end.
Proof.
  intros Hinf Hget. unfold enrich, bind, lift. rewrite get_dict, Hinf.
  cbn [default id PyVal.truthy PyVal.getitem0]. rewrite Hget.
  unfold call_decoder. now destruct (get_deserialize_data o).
Qed.

(** [enrich] on a record without inferences: nothing is decoded, the
    record is returned as it is. *)
Lemma enrich_without_inferences (d : list (string * pyval)) (w : World) :
  PyVal.dict_lookup "Inferences" d = None
  \/ PyVal.dict_lookup "Inferences" d = Some (PyList []) ->
  enrich (PyDict d) w = (Ok (PyDict d), w).
Proof.
  intros [H|H]; unfold enrich, bind, lift; rewrite get_dict, H; reflexivity.
Qed.

(** C4, as the code has it. A body that [json.loads] rejects is answered
    with a failure body and no file is written, but no counter moves:
    [errors] is incremented only inside the two save routines, which are
    not reached. *)
Theorem invalid_json_not_counted (path : string) (request : Request)
  (w : World) (e : exn) :
  json_loads (body request) = Raise e ->
  let r := update_inference_result path request w in
  fst r = Ok (PyDict [("status", PyInt 500);
                      ("error", PyString (str_exn e));
                      ("process_time_ms",
                       PyInt (process_time_ms (clock w (ticks w))
                                              (clock w (S (ticks w)))))])
  /\ fs (snd r) = fs w
  /\ processing_stats (snd r) = processing_stats w
  /\ errors (processing_stats (snd r)) = errors (processing_stats w).
Proof.
  intros H. unfold update_inference_result, bind, try_except, lift, time_time.
  rewrite H. now cbn.
Qed.

(** C2, as the code has it. When the decoder raises on the [O] field of
    the first inference, the request is answered with a failure body and
    no file is written, but no counter moves: [errors] is incremented
    only inside [save_meta_file], which is not reached. *)
Theorem decode_failure_not_counted (path : string) (request : Request)
  (w : World) (d : list (string * pyval)) (first : pyval)
  (rest : list pyval) (o : pyval) (e : exn) :
  json_loads (body request) = Ok (PyDict d) ->
  PyVal.dict_lookup "Inferences" d = Some (PyList (first :: rest)) ->
  PyVal.get first "O" (PyString EmptyString) = Ok o ->
  get_deserialize_data o = Raise e ->
  let r := update_inference_result path request w in
  fst r = Ok (PyDict [("status", PyInt 500);
                      ("error", PyString (str_exn e));
                      ("process_time_ms",
                       PyInt (process_time_ms (clock w (ticks w))
                                              (clock w (S (ticks w)))))])
  /\ fs (snd r) = fs w
  /\ processing_stats (snd r) = processing_stats w
  /\ errors (processing_stats (snd r)) = errors (processing_stats w).
Proof.
  intros Hl Hinf Hget Hdec.
  unfold update_inference_result, bind, try_except, lift, time_time.
  rewrite Hl, get_dict.
  rewrite (enrich_first _ _ _ _ _ Hinf Hget), Hdec. now cbn.
Qed.

Lemma save_meta_file_decoder_calls (path : string) (record : pyval)
  (w : World) :
  decoder_calls (snd (save_meta_file path record w)) = decoder_calls w.
Proof.
  rewrite save_meta_file_run. cbv zeta.
  destruct (Fs.mkdir _ _) as [[[]|e] f1]; [|reflexivity].
  destruct (json_dumps _); [|reflexivity].
  now destruct (Fs.open_trunc _ _) as [[loc f2]|e].
Qed.

(** C6. A record whose [Inferences] field is absent or the empty list: the
    decoder is not called, and when the request succeeds the file at the
    destination holds the serialisation of the record exactly as it was
    parsed, with no field added. *)
Theorem record_without_inferences_passes_through (path : string)
  (request : Request) (w : World) (d : list (string * pyval)) :
  json_loads (body request) = Ok (PyDict d) ->
  PyVal.dict_lookup "Inferences" d = None
  \/ PyVal.dict_lookup "Inferences" d = Some (PyList []) ->
  let r := update_inference_result path request w in
  decoder_calls (snd r) = decoder_calls w
  /\ (forall resp,
        fst r = Ok resp -> reports_success resp = true ->
        exists json_str,
          json_dumps (PyDict d) = Ok json_str
          /\ Fs.read (meta_file_path path) (fs (snd r))
             = Some (list_byte_of_string json_str)).
Proof.
  intros Hl Hinf.
  unfold update_inference_result, bind, try_except, lift, time_time.
  rewrite Hl, get_dict, (enrich_without_inferences _ _ Hinf).
  match goal with
  | |- context [save_meta_file path (PyDict d) ?w1] =>
      pose proof (save_meta_file_decoder_calls path (PyDict d) w1) as Hcalls;
      destruct (save_meta_file path (PyDict d) w1) as [[p|e] w2] eqn:Hs
  end; cbn in Hcalls |- *.
  - split; [assumption|]. intros resp _ _.
    apply save_meta_file_ok in Hs
      as (f1 & js & loc & f2 & _ & Hd & Ho & _ & ->).
    exists js. split; [assumption|].
    apply (read_after_write _ _ _ _ _ Ho).
  - split; [assumption|]. intros resp [= <-]. discriminate.
Qed.

End MetadataFacts.

(** ** Request paths and pathlib joins *)

Section PathFacts.

Lemma split_nonempty (sep : ascii) (s : string) : PyStr.split sep s <> [].
Proof.
  induction s as [|c s IH]; simpl; [discriminate|].
  destruct (Ascii.eqb c sep); [discriminate|].
  now destruct (PyStr.split sep s).
Qed.

(** No segment contains the separator. *)
Lemma split_no_sep (sep : ascii) (s : string) :
  Forall (fun seg => PyStr.contains_char sep seg = false) (PyStr.split sep s).
Proof.
  induction s as [|c s IH]; simpl; [repeat constructor|].
  destruct (Ascii.eqb c sep) eqn:Hc; [constructor; [reflexivity | exact IH]|].
  destruct (PyStr.split sep s) as [|x r]; [repeat constructor; simpl; now rewrite Hc|].
  inversion IH as [|? ? Hx Hr]; subst.
  constructor; [simpl; now rewrite Hc, Hx | exact Hr].
Qed.

Lemma split_single (sep : ascii) (s : string) :
  PyStr.contains_char sep s = false -> PyStr.split sep s = [s].
Proof.
  induction s as [|c s IH]; simpl; [reflexivity|].
  intros [Hc Hs]%orb_false_iff. rewrite Hc, (IH Hs). reflexivity.
Qed.

(** The segments are the directories followed by the file name. *)
Lemma split_path_segments (path : string) :
  fst (split_path path) ++ [snd (split_path path)] = PyStr.split "/" path.
Proof.
  unfold split_path, list_last, list_init; simpl.
  pose proof (split_nonempty "/" path) as Hne.
  destruct (PyStr.split "/" path) as [|x [|y r]] eqn:Hs; [congruence|reflexivity|].
  change (length (x :: y :: r)) with (S (S (length r))). cbn [Nat.ltb Nat.leb].
  symmetry. apply app_removelast_last. discriminate.
Qed.

Lemma of_string_segment (seg : string) :
  PyStr.contains_char "/" seg = false ->
  PurePath.of_string seg
  = {| absolute := false;
       parts := if PurePath.keep_part seg then [seg] else [] |}.
Proof.
  intros H. unfold PurePath.of_string. rewrite (split_single _ _ H).
  f_equal. destruct seg as [|c seg]; [reflexivity|].
  simpl in H. apply orb_false_iff in H as [H _].
  unfold PurePath.starts_with_slash. exact H.
Qed.

Lemma truediv_segment (p : Path) (seg : string) :
  PyStr.contains_char "/" seg = false ->
  PurePath.truediv p seg
  = {| absolute := absolute p;
       parts := parts p ++ (if PurePath.keep_part seg then [seg] else []) |}.
Proof.
  intros H. unfold PurePath.truediv. now rewrite (of_string_segment _ H).
Qed.

Lemma build_dir_segments (root : Path) (segs : list string) :
  Forall (fun seg => PyStr.contains_char "/" seg = false) segs ->
  build_dir root segs
  = {| absolute := absolute root;
       parts := parts root ++ List.filter PurePath.keep_part segs |}.
Proof.
  unfold build_dir. revert root.
  induction segs as [|seg segs IH]; intros root Hs; simpl.
  - rewrite app_nil_r. now destruct root.
  - inversion Hs as [|? ? Hseg Hrest]; subst.
    rewrite (IH _ Hrest), (truediv_segment _ _ Hseg). simpl.
    rewrite <- app_assoc. now destruct (PurePath.keep_part seg).
Qed.

(** The destination of an image: the root, then the segments that name
    something. *)
Lemma image_file_path_parts (path : string) :
  image_file_path path
  = {| absolute := false;
       parts := "image" :: List.filter PurePath.keep_part (PyStr.split "/" path) |}.
Proof.
  pose proof (split_path_segments path) as Hsegs.
  pose proof (split_no_sep "/" path) as Hsep.
  unfold image_file_path. destruct (split_path path) as [subdirs filename].
  simpl in Hsegs. rewrite <- Hsegs in *.
  apply Forall_app in Hsep as [Hd Hf]. inversion Hf; subst.
  rewrite (build_dir_segments _ _ Hd), truediv_segment by assumption.
  simpl. now rewrite List.filter_app.
Qed.


Lemma contains_char_app (c : ascii) (a b : string) :
  PyStr.contains_char c (a +:+ b)
  = PyStr.contains_char c a || PyStr.contains_char c b.
Proof.
  induction a as [|x a IH]; [reflexivity|].
  rewrite app_cons. simpl. now rewrite IH, orb_assoc.
Qed.

Lemma contains_char_take (c : ascii) (n : nat) (s : string) :
  PyStr.contains_char c s = false ->
  PyStr.contains_char c (PyStr.take n s) = false.
Proof.
  revert s; induction n as [|n IH]; intros [|x s]; simpl; auto.
  intros [Hx Hs]%orb_false_iff. now rewrite Hx, (IH _ Hs).
Qed.

Lemma meta_filename_no_sep (c : ascii) (name : string) :
  PyStr.contains_char c ".json" = false ->
  PyStr.contains_char c name = false ->
  PyStr.contains_char c (meta_filename name) = false.
Proof.
  intros Hj H. unfold meta_filename, PyStr.slice_to_neg.
  destruct (PyStr.endswith name ".txt").
  - now rewrite contains_char_app, contains_char_take, Hj.
  - destruct (negb (PyStr.endswith name ".json")); [|assumption].
    now rewrite contains_char_app, H, Hj.
Qed.

Lemma meta_filename_long (name : string) :
  (5 <= String.length (meta_filename name))%nat.
Proof.
  destruct (meta_filename_shape name) as [stem ->].
  rewrite string_length_app. simpl. lia.
Qed.

Lemma long_name_kept (name : string) :
  (3 <= String.length name)%nat ->
  PurePath.keep_part name = true /\ name <> "..".
Proof.
  destruct name as [|a [|b [|c name]]]; simpl; try lia.
  intros _. split; [|discriminate].
  unfold PurePath.keep_part. simpl.
  destruct (Ascii.eqb a "."); reflexivity.
Qed.

(** The destination of a metadata record. *)
Lemma meta_file_path_parts (path : string) :
  meta_file_path path
  = {| absolute := false;
       parts := "meta" :: List.filter PurePath.keep_part (fst (split_path path))
                ++ [meta_filename (snd (split_path path))] |}.
Proof.
  pose proof (split_path_segments path) as Hsegs.
  pose proof (split_no_sep "/" path) as Hsep.
  unfold meta_file_path. destruct (split_path path) as [subdirs filename].
  simpl in Hsegs. rewrite <- Hsegs in *.
  apply Forall_app in Hsep as [Hd Hf]. inversion Hf; subst.
  rewrite (build_dir_segments _ _ Hd), truediv_segment
    by now apply meta_filename_no_sep.
  destruct (long_name_kept (meta_filename filename)) as [-> _];
    [pose proof (meta_filename_long filename); lia|].
  reflexivity.
Qed.


(** Without [..] a walk only goes down. *)
Lemma fold_step_down (comps base : list string) :
  ~ In ".." comps -> fold_left Fs.step comps base = base ++ comps.
Proof.
  revert base; induction comps as [|c comps IH]; intros base Hno; simpl.
  - now rewrite app_nil_r.
  - unfold Fs.step at 2. destruct (String.eqb c "..") eqn:Hc.
    + apply String.eqb_eq in Hc. exfalso. apply Hno. now left.
    + rewrite IH; [now rewrite <- app_assoc | intros Hin; apply Hno; now right].
Qed.

End PathFacts.

(** ** Making directories *)

Section MkdirFacts.

Implicit Types (t : gmap (list string) inode) (cur loc d : list string).

Lemma walk_fold t cur (comps : list string) d :
  Fs.walk t cur comps = inl d -> d = fold_left Fs.step comps cur.
Proof.
  revert cur; induction comps as [|c comps IH]; intros cur; simpl.
  - now intros [= <-].
  - destruct (Fs.node_at t (Fs.step cur c)) as [[|data]|]; try discriminate.
    apply IH.
Qed.

(** The location a path names is its lexical one. *)
Lemma locate_abspath (p : Path) (f : FS) loc :
  absolute p = false ->
  Fs.locate p f = Some loc -> loc = abspath (cwd f) p.
Proof.
  intros Ha. unfold Fs.locate, abspath, Fs.start. rewrite Ha.
  destruct (parts p) as [|s l] eqn:Hp; [now intros [= <-]|].
  destruct (Fs.walk _ _ _) as [d|k] eqn:Hw; [|discriminate].
  intros [= <-]. apply walk_fold in Hw as ->.
  match goal with
  | |- _ = fold_left Fs.step (s :: l) ?st =>
      replace (fold_left Fs.step (s :: l) st)
        with (fold_left Fs.step
                (List.removelast (s :: l) ++ [List.last (s :: l) EmptyString]) st)
        by (now rewrite <- app_removelast_last)
  end.
  now rewrite fold_left_app.
Qed.

Lemma os_mkdir_ok (p : Path) (f f' : FS) :
  Fs.os_mkdir p f = Ok f' ->
  exists d,
    Fs.walk (tree f) (Fs.start f p) (List.removelast (parts p)) = inl d
    /\ tree f !! (d ++ [List.last (parts p) EmptyString]) = None
    /\ f' = {| cwd := cwd f;
               tree := <[d ++ [List.last (parts p) EmptyString] := IDir]> (tree f) |}.
Proof.
  unfold Fs.os_mkdir.
  destruct (Fs.has_nul p); [discriminate|].
  destruct (parts p) as [|s l] eqn:Hp; [discriminate|].
  destruct (Fs.walk _ _ _) as [d|k] eqn:Hw; [|discriminate].
  remember (List.last (s :: l) EmptyString) as c eqn:Hlast.
  destruct (String.eqb c ".."); [discriminate|].
  rewrite node_at_nonempty.
  destruct (tree f !! (d ++ [c])) eqn:Hn; [discriminate|].
  intros [= <-]. now exists d.
Qed.

(** Making directories keeps the working directory and every regular
    file, and makes no regular file. *)
Lemma os_mkdir_files (p : Path) (f f' : FS) :
  Fs.os_mkdir p f = Ok f' ->
  cwd f' = cwd f
  /\ forall l x, tree f' !! l = Some (IFile x) -> tree f !! l = Some (IFile x).
Proof.
  intros (d & _ & Hn & ->)%os_mkdir_ok. split; [reflexivity|].
  intros l x. cbn [tree]. rewrite lookup_insert.
  destruct (decide _); [discriminate | auto].
Qed.

Lemma mkdir_single_files (b : bool) (p : Path) (f f' : FS) :
  Fs.mkdir_single b p f = Ok f' ->
  cwd f' = cwd f
  /\ forall l x, tree f' !! l = Some (IFile x) -> tree f !! l = Some (IFile x).
Proof.
  unfold Fs.mkdir_single.
  destruct (Fs.os_mkdir p f) as [f1|e] eqn:Hm.
  - intros [= <-]. now apply os_mkdir_files in Hm.
  - destruct e as [[] ?| | | | | |]; try discriminate;
      destruct (b && Fs.is_dir p f); try discriminate;
      intros [= <-]; auto.
Qed.

Lemma mkdir_parents_files (a : bool) (rparts : list string) (f f' : FS)
  (r : Result unit) :
  Fs.mkdir_parents a rparts f = (r, f') ->
  cwd f' = cwd f
  /\ forall l x, tree f' !! l = Some (IFile x) -> tree f !! l = Some (IFile x).
Proof.
  revert f f' r; induction rparts as [|c rparts IH]; intros f f' r;
    cbn [Fs.mkdir_parents];
    destruct (Fs.os_mkdir _ f) as [f1|e] eqn:Hm;
    try (intros [= <- <-]; now apply os_mkdir_files in Hm).
  - destruct e as [[] ?| | | | | |]; try (intros [= <- <-]; now auto);
      destruct (Fs.is_dir _ f); intros [= <- <-]; auto.
  - destruct e as [[] ?| | | | | |]; try (intros [= <- <-]; now auto);
      try (destruct (Fs.is_dir _ f); intros [= <- <-]; now auto).
    destruct (Fs.mkdir_parents a rparts f) as [[[]|e1] f2] eqn:Hrec;
      [|intros [= <- <-]; now apply IH in Hrec].
    apply IH in Hrec as [Hc Hf].
    destruct (Fs.mkdir_single true _ f2) as [f3|e3] eqn:Hs;
      intros [= <- <-]; [|now auto].
    apply mkdir_single_files in Hs as [Hc' Hf'].
    split; [congruence | auto].
Qed.

Lemma mkdir_files (p : Path) (f f' : FS) (r : Result unit) :
  Fs.mkdir p f = (r, f') ->
  cwd f' = cwd f
  /\ forall l x, tree f' !! l = Some (IFile x) -> tree f !! l = Some (IFile x).
Proof. apply mkdir_parents_files. Qed.

End MkdirFacts.

(** ** Destinations and the configured roots *)

Section RootFacts.

Context `{E : Env}.

Lemma under_root (base : list string) (root : string) (rest : list string) :
  under (base ++ [root]) (base ++ root :: rest).
Proof. exists rest. now rewrite <- app_assoc. Qed.

Lemma image_root (base : list string) :
  abspath base Config.IMAGE_DIR = base ++ ["image"].
Proof. reflexivity. Qed.

Lemma meta_root (base : list string) :
  abspath base Config.META_DIR = base ++ ["meta"].
Proof. reflexivity. Qed.

Lemma image_destination_under (base : list string) (path : string) :
  ~ In ".." (PyStr.split "/" path) ->
  under (abspath base Config.IMAGE_DIR) (abspath base (image_file_path path)).
Proof.
  intros Hno. rewrite image_root, image_file_path_parts.
  unfold abspath; cbn [absolute parts]. rewrite fold_step_down.
  - apply (under_root base "image").
  - intros [Hi|Hi]; [discriminate|].
    apply filter_In in Hi as [Hi _]. contradiction.
Qed.

Lemma meta_destination_under (base : list string) (path : string) :
  ~ In ".." (PyStr.split "/" path) ->
  under (abspath base Config.META_DIR) (abspath base (meta_file_path path)).
Proof.
  intros Hno. rewrite meta_root, meta_file_path_parts.
  unfold abspath; cbn [absolute parts]. rewrite fold_step_down.
  - apply (under_root base "meta").
  - rewrite <- (split_path_segments path) in Hno.
    intros [Hi|Hi]; [discriminate|].
    apply in_app_or in Hi as [Hi|[Hi|[]]].
    + apply filter_In in Hi as [Hi _]. apply Hno, in_or_app. now left.
    + destruct (long_name_kept (meta_filename (snd (split_path path))))
        as [_ Hne]; [pose proof (meta_filename_long (snd (split_path path))); lia|].
      congruence.
Qed.

(** A regular file found after [open] and [write] was there before, or is
    the one just written. *)
Lemma written_files (p : Path) (f f2 : FS) (loc : list string)
  (data : list byte) (l : list string) (x : list byte) :
  absolute p = false ->
  Fs.open_trunc p f = Ok (loc, f2) ->
  tree (Fs.write loc data f2) !! l = Some (IFile x) ->
  tree f !! l = Some (IFile x) \/ l = abspath (cwd f) p.
Proof.
  intros Ha Ho. destruct (read_after_write _ _ _ _ data Ho) as (Hl & _ & Hw).
  apply locate_abspath in Hl; [|assumption]. rewrite Hw in Hl |- *.
  cbn [tree cwd] in *. rewrite lookup_insert.
  destruct (decide (loc = l)) as [<-|]; [right; assumption | left; assumption].
Qed.

Lemma image_files_under_root (path : string) (data : list byte) (w : World)
  (l : list string) (x : list byte) :
  ~ In ".." (PyStr.split "/" path) ->
  tree (fs (snd (save_image_file path data w))) !! l = Some (IFile x) ->
  tree (fs w) !! l = Some (IFile x)
  \/ under (abspath (cwd (fs w)) Config.IMAGE_DIR) l.
Proof.
  intros Hno. rewrite save_image_file_run. cbv zeta.
  destruct (Fs.mkdir _ (fs w)) as [[[]|e] f1] eqn:Hmk;
    apply mkdir_files in Hmk as [Hcwd Hfiles]; [|cbn; auto].
  destruct (Fs.open_trunc _ f1) as [[loc f2]|e] eqn:Ho; [|cbn; auto].
  cbn [snd fs set_fs set_stats]. intros Hl.
  assert (Ha : absolute (image_file_path path) = false)
    by now rewrite image_file_path_parts.
  destruct (written_files _ _ _ _ _ _ _ Ha Ho Hl) as [Hl'| ->]; [auto|].
  right. rewrite Hcwd. now apply image_destination_under.
Qed.

Lemma meta_files_under_root (path : string) (record : pyval) (w : World)
  (l : list string) (x : list byte) :
  ~ In ".." (PyStr.split "/" path) ->
  tree (fs (snd (save_meta_file path record w))) !! l = Some (IFile x) ->
  tree (fs w) !! l = Some (IFile x)
  \/ under (abspath (cwd (fs w)) Config.META_DIR) l.
Proof.
  intros Hno. rewrite save_meta_file_run. cbv zeta.
  destruct (Fs.mkdir _ (fs w)) as [[[]|e] f1] eqn:Hmk;
    apply mkdir_files in Hmk as [Hcwd Hfiles]; [|cbn; auto].
  destruct (json_dumps record) as [json_str|e]; [|cbn; auto].
  destruct (Fs.open_trunc _ f1) as [[loc f2]|e] eqn:Ho; [|cbn; auto].
  cbn [snd fs set_fs set_stats]. intros Hl.
  assert (Ha : absolute (meta_file_path path) = false)
    by now rewrite meta_file_path_parts.
  destruct (written_files _ _ _ _ _ _ _ Ha Ho Hl) as [Hl'| ->]; [auto|].
  right. rewrite Hcwd. now apply meta_destination_under.
Qed.

(** C3, as the code has it. When no segment of the request path is [..],
    the destination of an image lies under the image root and the
    destination of a metadata record under the metadata root, wherever
    the process runs; and every regular file found after a save, be it
    successful or not, was there before the save or lies under that root.
    Nothing in the code neutralises a [..] segment. *)
Theorem destination_under_root_without_dotdot (path : string) :
  ~ In ".." (PyStr.split "/" path) ->
  (forall base,
      under (abspath base Config.IMAGE_DIR) (abspath base (image_file_path path))
      /\ under (abspath base Config.META_DIR) (abspath base (meta_file_path path)))
  /\ (forall data w l x,
        tree (fs (snd (save_image_file path data w))) !! l = Some (IFile x) ->
        tree (fs w) !! l = Some (IFile x)
        \/ under (abspath (cwd (fs w)) Config.IMAGE_DIR) l)
  /\ (forall record w l x,
        tree (fs (snd (save_meta_file path record w))) !! l = Some (IFile x) ->
        tree (fs w) !! l = Some (IFile x)
        \/ under (abspath (cwd (fs w)) Config.META_DIR) l).
Proof.
  intros Hno. repeat split.
  - now apply image_destination_under.
  - now apply meta_destination_under.
  - intros. now apply (image_files_under_root path data).
  - intros. now apply (meta_files_under_root path record).
Qed.

End RootFacts.

(** ** Making the directory chain of a plain path *)

Section PlainPaths.

Implicit Types (t : gmap (list string) inode) (cur loc d : list string).

Lemma plain_facts (seg : string) :
  plain seg = true ->
  PurePath.keep_part seg = true
  /\ String.eqb seg ".." = false
  /\ PyStr.contains_char "000"%char seg = false.
Proof.
  unfold plain, PurePath.keep_part.
  intros [[[H1 H2]%andb_true_iff H3]%andb_true_iff H4]%andb_true_iff.
  rewrite H1, H2. apply negb_true_iff in H3, H4. auto.
Qed.

Lemma plain_no_dotdot (segs : list string) :
  Forall (fun seg => plain seg = true) segs -> ~ In ".." segs.
Proof.
  intros H Hin. rewrite List.Forall_forall in H.
  apply H in Hin. discriminate.
Qed.

Lemma plain_no_nul (a : bool) (segs : list string) :
  Forall (fun seg => plain seg = true) segs ->
  Fs.has_nul {| absolute := a; parts := segs |} = false.
Proof.
  unfold Fs.has_nul; cbn [parts]. induction 1 as [|seg segs Hs _ IH]; simpl;
    [reflexivity|].
  apply plain_facts in Hs as (_ & _ & ->). exact IH.
Qed.

Lemma plain_filter (segs : list string) :
  Forall (fun seg => plain seg = true) segs ->
  List.filter PurePath.keep_part segs = segs.
Proof.
  induction 1 as [|seg segs Hs _ IH]; simpl; [reflexivity|].
  apply plain_facts in Hs as (-> & _). now rewrite IH.
Qed.

Lemma walk_err t cur (comps : list string) (k : oserror) :
  Fs.walk t cur comps = inr k -> k = ENOENT \/ k = ENOTDIR.
Proof.
  revert cur; induction comps as [|c comps IH]; intros cur; simpl;
    [discriminate|].
  destruct (Fs.node_at t (Fs.step cur c)) as [[|data]|];
    [apply IH | intros [= <-]; now right | intros [= <-]; now left].
Qed.

Lemma walk_down t cur (comps : list string) d :
  ~ In ".." comps -> Fs.walk t cur comps = inl d -> d = cur ++ comps.
Proof.
  intros Hno Hw. apply walk_fold in Hw as ->. now apply fold_step_down.
Qed.

Lemma step_down cur (c : string) :
  String.eqb c ".." = false -> Fs.step cur c = cur ++ [c].
Proof. intros H. unfold Fs.step. now rewrite H. Qed.

Lemma clear_way_app t cur (a b : list string) :
  Fs.clear_way t cur (a ++ b)
  = Fs.clear_way t cur a && Fs.clear_way t (cur ++ a) b.
Proof.
  revert cur; induction a as [|c a IH]; intros cur; simpl.
  - now rewrite app_nil_r.
  - rewrite IH, <- app_assoc. simpl.
    now destruct (t !! (cur ++ [c])) as [[|data]|].
Qed.

(** On a clear way a walk can only stop for a missing directory. *)
Lemma walk_clear t cur (comps : list string) :
  ~ In ".." comps ->
  Fs.clear_way t cur comps = true ->
  Fs.walk t cur comps <> inr ENOTDIR.
Proof.
  revert cur; induction comps as [|c comps IH]; intros cur Hno; simpl;
    [discriminate|].
  rewrite step_down, node_at_nonempty.
  - destruct (t !! (cur ++ [c])) as [[|data]|]; try discriminate.
    apply IH. intros Hin; apply Hno; now right.
  - destruct (String.eqb c "..") eqn:Hc; [|reflexivity].
    apply String.eqb_eq in Hc. exfalso; apply Hno; now left.
Qed.

(** [os.mkdir] of a path that ends in a plain name. *)
Lemma os_mkdir_snoc (a : bool) (ps : list string) (c : string) (f : FS) :
  Fs.has_nul {| absolute := a; parts := ps ++ [c] |} = false ->
  String.eqb c ".." = false ->
  let p := {| absolute := a; parts := ps ++ [c] |} in
  Fs.os_mkdir p f =
  match Fs.walk (tree f) (Fs.start f p) ps with
  | inr k => Raise (OSError k (PurePath.str p))
  | inl d =>
      match tree f !! (d ++ [c]) with
      | Some _ => Raise (OSError EEXIST (PurePath.str p))
      | None => Ok {| cwd := cwd f; tree := <[d ++ [c] := IDir]> (tree f) |}
      end
  end.
Proof.
  intros Hnul Hc p. subst p. unfold Fs.os_mkdir. rewrite Hnul.
  cbn [parts].
  destruct (ps ++ [c]) as [|s l] eqn:Hps; [now destruct ps|].
  rewrite <- Hps, removelast_last, last_last, Hc.
  destruct (Fs.walk _ _ ps) as [d|k]; [|reflexivity].
  now rewrite node_at_nonempty.
Qed.

Lemma is_dir_snoc (a : bool) (ps : list string) (c : string) (f : FS) d :
  Fs.has_nul {| absolute := a; parts := ps ++ [c] |} = false ->
  String.eqb c ".." = false ->
  Fs.walk (tree f) (if a then [] else cwd f) ps = inl d ->
  tree f !! (d ++ [c]) = Some IDir ->
  Fs.is_dir {| absolute := a; parts := ps ++ [c] |} f = true.
Proof.
  intros Hnul Hc Hw Hn. unfold Fs.is_dir, Fs.start. rewrite Hnul.
  cbn [absolute parts negb andb]. rewrite walk_app, Hw. simpl.
  now rewrite (step_down _ _ Hc), node_at_nonempty, Hn.
Qed.

(** [mkdir(parents=True, exist_ok=True)] on a plain path whose way is
    clear succeeds; afterwards the whole chain exists, and locations
    deeper than the path are as before. *)
Lemma mkdir_parents_plain (a : bool) (rparts : list string) (f : FS)
  (st : list string) :
  st = (if a then [] else cwd f) ->
  Forall (fun seg => plain seg = true) rparts ->
  Fs.clear_way (tree f) st (List.rev rparts) = true ->
  exists t1,
    Fs.mkdir_parents a rparts f = (Ok tt, {| cwd := cwd f; tree := t1 |})
    /\ Fs.walk t1 st (List.rev rparts) = inl (st ++ List.rev rparts)
    /\ forall l, (length st + length rparts < length l)%nat ->
                 t1 !! l = tree f !! l.
Proof.
  intros Hst. induction rparts as [|c rp IH]; intros Hplain Hclear.
  - exists (tree f). cbn. rewrite app_nil_r. destruct f. now destruct a.
  - apply Forall_cons in Hplain as [Hc Hrp].
    assert (Hnul : Fs.has_nul {| absolute := a; parts := List.rev rp ++ [c] |}
                   = false).
    { apply plain_no_nul, Forall_app. split; [now apply Forall_rev|].
      now constructor. }
    pose proof (plain_facts _ Hc) as (_ & Hdd & _).
    assert (Hno : ~ In ".." (List.rev rp)).
    { intros Hin%in_rev. now apply (plain_no_dotdot rp). }
    cbn [List.rev] in Hclear |- *.
    rewrite clear_way_app in Hclear. apply andb_true_iff in Hclear as [Hc1 Hc2].
    cbn [Fs.clear_way] in Hc2.
    cbn [Fs.mkdir_parents List.rev].
    rewrite (os_mkdir_snoc a (List.rev rp) c f Hnul Hdd).
    unfold Fs.start; cbn [absolute]. rewrite <- Hst.
    destruct (Fs.walk (tree f) st (List.rev rp)) as [d|k] eqn:Hw.
    + pose proof (walk_down _ _ _ _ Hno Hw) as ->.
      destruct (tree f !! ((st ++ List.rev rp) ++ [c])) as [[|data]|] eqn:Hn;
        [| discriminate |].
      * rewrite (is_dir_snoc a _ c f (st ++ List.rev rp) Hnul Hdd);
          [| now rewrite <- Hst | assumption].
        exists (tree f). split; [now destruct f|]. split; [|reflexivity].
        rewrite walk_app, Hw. simpl.
        now rewrite (step_down _ _ Hdd), node_at_nonempty, Hn, app_assoc.
      * eexists. split; [reflexivity|]. split.
        -- rewrite walk_app.
           rewrite (walk_insert _ _ _ (st ++ List.rev rp)); [|now rewrite
             node_at_nonempty, Hn|assumption].
           simpl. rewrite (step_down _ _ Hdd), node_at_nonempty.
           now rewrite lookup_insert_eq, app_assoc.
        -- intros l Hl. apply lookup_insert_ne. intros <-.
           rewrite !length_app in Hl. simpl in Hl.
           rewrite length_rev in Hl. lia.
    + destruct (walk_err _ _ _ _ Hw) as [-> | ->];
        [|now apply walk_clear in Hw].
      destruct (IH Hrp Hc1) as (t1 & -> & Hw1 & Hframe).
      unfold Fs.mkdir_single.
      rewrite (os_mkdir_snoc a (List.rev rp) c _ Hnul Hdd).
      unfold Fs.start; cbn [absolute cwd tree]. rewrite <- Hst, Hw1.
      assert (Hsame : t1 !! ((st ++ List.rev rp) ++ [c])
                      = tree f !! ((st ++ List.rev rp) ++ [c])).
      { apply Hframe. rewrite !length_app, length_rev. simpl. lia. }
      rewrite Hsame.
      destruct (tree f !! ((st ++ List.rev rp) ++ [c])) as [[|data]|] eqn:Hn;
        [| discriminate |].
      * cbn [andb].
        rewrite (is_dir_snoc a _ c {| cwd := cwd f; tree := t1 |}
                   (st ++ List.rev rp) Hnul Hdd); cbn [cwd tree];
          [| now rewrite <- Hst | now rewrite Hsame].
        exists t1. split; [reflexivity|]. split.
        -- rewrite walk_app, Hw1. simpl.
           now rewrite (step_down _ _ Hdd), node_at_nonempty, Hsame, app_assoc.
        -- intros l Hl. apply Hframe. simpl in Hl. lia.
      * eexists. split; [reflexivity|]. split.
        -- rewrite walk_app.
           rewrite (walk_insert _ _ _ (st ++ List.rev rp)); [|now rewrite
             node_at_nonempty, Hsame|assumption].
           simpl. rewrite (step_down _ _ Hdd), node_at_nonempty.
           now rewrite lookup_insert_eq, app_assoc.
        -- intros l Hl. rewrite lookup_insert_ne; [apply Hframe; simpl in Hl; lia|].
           intros <-. rewrite !length_app in Hl. simpl in Hl.
           rewrite length_rev in Hl. lia.
Qed.

End PlainPaths.

(** ** Images land where the request path says *)

Section ImageFacts.




End ImageFacts.

Section ImageHandler.



End ImageHandler.

(** ** The statements on concrete requests *)

Section Examples.

Import Ref.


(** The counterexample to C3 as it is worded: the request path [../x]
    resolves to [x] next to the image root, not under it, and the handler
    writes the image there. *)
Lemma dotdot_escapes_root :
  let path := "../x" in
  let r := update_image path (request "PNG") world0 in
  ~ under (abspath (cwd fs0) Config.IMAGE_DIR)
          (abspath (cwd fs0) (image_file_path path))
  /\ abspath (cwd fs0) Config.IMAGE_DIR = ["srv"; "app"; "image"]
  /\ abspath (cwd fs0) (image_file_path path) = ["srv"; "app"; "x"]
  /\ fst r = Ok (PyDict [("status", PyInt 200);
                         ("file_path", PyString "image/../x");
                         ("process_time_ms", PyInt 10)])
  /\ tree fs0 !! ["srv"; "app"; "x"] = None
  /\ tree (fs (snd r)) !! ["srv"; "app"; "x"] = Some (IFile (bytes "PNG")).
Proof.
  split; [|vm_compute; repeat split].
  intros [k Hk]. vm_compute in Hk. congruence.
Qed.


Lemma image_write_overwrites_witness :
  let w1 := snd (save_image_file frame001 (bytes "AAAA") world0) in
  let w2 := snd (save_image_file frame001 (bytes "BB") w1) in
  "image/dev1/2024/frame001.jpg" = "image/dev1/2024/frame001.jpg"
  /\ Fs.read (image_file_path frame001) (fs w1) = Some (bytes "AAAA")
  /\ Fs.read (image_file_path frame001) (fs w2) = Some (bytes "BB").
Proof.
  apply (image_write_overwrites frame001 (bytes "AAAA") (bytes "BB") world0).
  - vm_compute. reflexivity.
  - vm_compute. reflexivity.
Defined.

Lemma successful_save_counts_once_witness :
  let w1 := snd (save_image_file frame001 (bytes "PNG") world0) in
  let w2 := snd (save_meta_file result_txt (PyDict [("DeviceID", PyString "dev1")]) w1) in
  (images_received (processing_stats w1) = 0 + 1
   /\ meta_received (processing_stats w1) = 0
   /\ errors (processing_stats w1) = 0)
  /\ (meta_received (processing_stats w2) = 0 + 1
      /\ images_received (processing_stats w2) = 1
      /\ errors (processing_stats w2) = 0).
Proof.
  split.
  - apply (proj1 successful_save_counts_once frame001 (bytes "PNG") world0
             "image/dev1/2024/frame001.jpg").
    vm_compute. reflexivity.
  - apply (proj2 successful_save_counts_once result_txt
             (PyDict [("DeviceID", PyString "dev1")])
             (snd (save_image_file frame001 (bytes "PNG") world0))
             "meta/dev1/2024/result.json").
    vm_compute. reflexivity.
Defined.

Lemma destination_under_root_without_dotdot_witness :
  under ["srv"; "app"; "image"]
        ["srv"; "app"; "image"; "dev1"; "2024"; "frame001.jpg"]
  /\ under ["srv"; "app"; "meta"]
           ["srv"; "app"; "meta"; "dev1"; "2024"; "result.json"].
Proof.
  assert (H1 : ~ In ".." (PyStr.split "/" frame001))
    by (vm_compute; intros [H|[H|[H|[]]]]; discriminate).
  assert (H2 : ~ In ".." (PyStr.split "/" result_txt))
    by (vm_compute; intros [H|[H|[H|[]]]]; discriminate).
  split.
  - apply (proj1 (proj1 (destination_under_root_without_dotdot frame001 H1)
                    ["srv"; "app"])).
  - apply (proj2 (proj1 (destination_under_root_without_dotdot result_txt H2)
                    ["srv"; "app"])).
Defined.

Lemma decode_failure_not_counted_witness :
  let r := update_inference_result result_txt (request bad_inference) world0 in
  fst r = Ok (PyDict [("status", PyInt 500);
                      ("error", PyString "cannot decode inference result");
                      ("process_time_ms", PyInt 10)])
  /\ fs (snd r) = fs world0
  /\ processing_stats (snd r) = processing_stats world0
  /\ errors (processing_stats (snd r)) = 0.
Proof.
  apply (decode_failure_not_counted result_txt (request bad_inference) world0
           [("DeviceID", PyString "dev1");
            ("Inferences", PyList [PyDict [("O", PyString "bad")]])]
           (PyDict [("O", PyString "bad")]) [] (PyString "bad")
           (OtherError "DecodeError" "cannot decode inference result"));
    vm_compute; reflexivity.
Defined.

Lemma invalid_json_not_counted_witness :
  let r := update_inference_result result_txt (request "not json") world0 in
  fst r = Ok (PyDict [("status", PyInt 500);
                      ("error", PyString "Expecting value");
                      ("process_time_ms", PyInt 10)])
  /\ fs (snd r) = fs world0
  /\ processing_stats (snd r) = processing_stats world0
  /\ errors (processing_stats (snd r)) = 0.
Proof.
  apply (invalid_json_not_counted result_txt (request "not json") world0
           (ValueError "Expecting value")).
  vm_compute. reflexivity.
Defined.

Lemma record_without_inferences_passes_through_witness :
  let r := update_inference_result result_txt (request no_inference) world0 in
  (decoder_calls (snd r) = []
   /\ (forall resp,
         fst r = Ok resp -> reports_success resp = true ->
         exists json_str,
           json_dumps (PyDict [("DeviceID", PyString "dev1");
                               ("Inferences", PyList [])]) = Ok json_str
           /\ Fs.read (meta_file_path result_txt) (fs (snd r))
              = Some (list_byte_of_string json_str)))
  /\ fst r = Ok (PyDict [("status", PyInt 200);
                         ("file_path", PyString "meta/dev1/2024/result.json");
                         ("process_time_ms", PyInt 10)])
  /\ Fs.read (meta_file_path result_txt) (fs (snd r))
     = Some (bytes (json_text "{'DeviceID': 'dev1', 'Inferences': []}")).
Proof.
  split.
  - apply (record_without_inferences_passes_through result_txt
             (request no_inference) world0
             [("DeviceID", PyString "dev1"); ("Inferences", PyList [])]).
    + vm_compute. reflexivity.
    + right. vm_compute. reflexivity.
  - vm_compute. split; reflexivity.
Defined.

End Examples.

(** * Further properties of the code *)

(** ** Counters, request by request *)

Section CounterFacts.

Context `{E : Env}.

Lemma failed_save_stats :
  (forall path data w e w',
      save_image_file path data w = (Raise e, w') ->
      processing_stats w' = bump_errors (processing_stats w)
      /\ log w' = LogError [LText "Error saving image file "; LText path;
                            LText ": "; LText (str_exn e)] :: log w)
  /\ (forall path record w e w',
        save_meta_file path record w = (Raise e, w') ->
        processing_stats w' = bump_errors (processing_stats w)
        /\ log w' = LogError [LText "Error saving meta file "; LText path;
                              LText ": "; LText (str_exn e)] :: log w).
Proof.
  split.
  - intros path data w e w'. rewrite save_image_file_run. cbv zeta.
    destruct (Fs.mkdir _ _) as [[[]|e1] f1]; [|now intros [= <- <-]].
    destruct (Fs.open_trunc _ _) as [[loc f2]|e2]; [discriminate|].
    now intros [= <- <-].
  - intros path record w e w'. rewrite save_meta_file_run. cbv zeta.
    destruct (Fs.mkdir _ _) as [[[]|e1] f1]; [|now intros [= <- <-]].
    destruct (json_dumps _) as [js|e2]; [|now intros [= <- <-]].
    destruct (Fs.open_trunc _ _) as [[loc f2]|e3]; [discriminate|].
    now intros [= <- <-].
Qed.

(** X1. A save routine that fails adds exactly one to [errors], leaves the
    two success counters alone, logs the error and raises the exception
    again. *)
Theorem failed_save_counts_one_error :
  (forall path data w e w',
      save_image_file path data w = (Raise e, w') ->
      processing_stats w' = bump_errors (processing_stats w)
      /\ log w' = LogError [LText "Error saving image file "; LText path;
                            LText ": "; LText (str_exn e)] :: log w)
  /\ (forall path record w e w',
        save_meta_file path record w = (Raise e, w') ->
        processing_stats w' = bump_errors (processing_stats w)
        /\ log w' = LogError [LText "Error saving meta file "; LText path;
                              LText ": "; LText (str_exn e)] :: log w).
Proof. exact failed_save_stats. Qed.



End CounterFacts.

(** ** What a save leaves alone *)

Section FrameFacts.

Context `{E : Env}.

Implicit Types (t : gmap (list string) inode) (loc d : list string).

(** Making directories removes and changes nothing. *)
Lemma os_mkdir_keeps (p : Path) (f f' : FS) :
  Fs.os_mkdir p f = Ok f' ->
  forall l n, tree f !! l = Some n -> tree f' !! l = Some n.
Proof.
  intros (d & _ & Hn & ->)%os_mkdir_ok l n Hl. cbn [tree].
  rewrite lookup_insert_ne; [assumption | congruence].
Qed.

Lemma mkdir_single_keeps (b : bool) (p : Path) (f f' : FS) :
  Fs.mkdir_single b p f = Ok f' ->
  forall l n, tree f !! l = Some n -> tree f' !! l = Some n.
Proof.
  unfold Fs.mkdir_single.
  destruct (Fs.os_mkdir p f) as [f1|e] eqn:Hm.
  - intros [= <-]. exact (os_mkdir_keeps _ _ _ Hm).
  - destruct e as [[] ?| | | | | |]; try discriminate;
      destruct (b && Fs.is_dir p f); try discriminate;
      intros [= <-]; auto.
Qed.

Lemma mkdir_parents_keeps (a : bool) (rparts : list string) (f f' : FS)
  (r : Result unit) :
  Fs.mkdir_parents a rparts f = (r, f') ->
  forall l n, tree f !! l = Some n -> tree f' !! l = Some n.
Proof.
  revert f f' r; induction rparts as [|c rparts IH]; intros f f' r;
    cbn [Fs.mkdir_parents];
    destruct (Fs.os_mkdir _ f) as [f1|e] eqn:Hm;
    try (intros [= <- <-]; exact (os_mkdir_keeps _ _ _ Hm)).
  - destruct e as [[] ?| | | | | |]; try (intros [= <- <-]; now auto);
      destruct (Fs.is_dir _ f); intros [= <- <-]; auto.
  - destruct e as [[] ?| | | | | |]; try (intros [= <- <-]; now auto);
      try (destruct (Fs.is_dir _ f); intros [= <- <-]; now auto).
    destruct (Fs.mkdir_parents a rparts f) as [[[]|e1] f2] eqn:Hrec;
      [|intros [= <- <-]; exact (IH _ _ _ Hrec)].
    pose proof (IH _ _ _ Hrec) as Hk.
    destruct (Fs.mkdir_single true _ f2) as [f3|e3] eqn:Hs;
      intros [= <- <-]; [|now auto].
    intros l n Hl. eapply mkdir_single_keeps; eauto.
Qed.

Lemma mkdir_keeps (p : Path) (f f' : FS) (r : Result unit) :
  Fs.mkdir p f = (r, f') ->
  forall l n, tree f !! l = Some n -> tree f' !! l = Some n.
Proof. apply mkdir_parents_keeps. Qed.

(** What [open] and [write] change: the one entry of the file. *)
Lemma open_write_tree (p : Path) (f f2 : FS) loc (data : list byte) :
  Fs.open_trunc p f = Ok (loc, f2) ->
  tree (Fs.write loc data f2) = <[loc := IFile data]> (tree f)
  /\ cwd (Fs.write loc data f2) = cwd f
  /\ tree f !! loc <> Some IDir
  /\ Fs.locate p (Fs.write loc data f2) = Some loc.
Proof.
  intros Ho. destruct (read_after_write _ _ _ _ data Ho) as (Hl & _ & Hw).
  apply open_trunc_ok in Ho as (d & c & _ & _ & _ & _ & -> & Hn & _).
  rewrite node_at_nonempty in Hn. rewrite Hw in *. now repeat split.
Qed.



(** A walk still succeeds when entries are added. *)
Lemma walk_keeps t t' (cur comps : list string) d :
  (forall l n, t !! l = Some n -> t' !! l = Some n) ->
  Fs.walk t cur comps = inl d -> Fs.walk t' cur comps = inl d.
Proof.
  intros Hk. revert cur; induction comps as [|c comps IH]; intros cur; simpl;
    [auto|].
  destruct (Fs.node_at t (Fs.step cur c)) as [[|data]|] eqn:Hn;
    try discriminate.
  assert (Fs.node_at t' (Fs.step cur c) = Some IDir) as ->; [|apply IH].
  destruct (Fs.step cur c); [reflexivity | apply Hk, Hn].
Qed.



End FrameFacts.

(** ** Writing the same image again *)

Section RetryFacts.

Implicit Types (t : gmap (list string) inode) (loc d : list string).

Lemma os_mkdir_is_dir (p : Path) (f f' : FS) :
  Fs.os_mkdir p f = Ok f' -> Fs.is_dir p f' = true.
Proof.
  unfold Fs.os_mkdir, Fs.is_dir.
  destruct (Fs.has_nul p); [discriminate|].
  destruct (parts p) as [|s l] eqn:Hp; [discriminate|].
  destruct (Fs.walk _ _ _) as [d|k] eqn:Hw; [|discriminate].
  remember (List.last (s :: l) EmptyString) as c eqn:Hlast.
  destruct (String.eqb c "..") eqn:Hc; [discriminate|].
  rewrite node_at_nonempty.
  destruct (tree f !! (d ++ [c])) eqn:Hn; [discriminate|].
  intros [= <-]. unfold Fs.start in *. cbn [cwd tree negb andb].
  rewrite (app_removelast_last EmptyString (l := s :: l)) by discriminate.
  rewrite <- Hlast. rewrite walk_app.
  rewrite (walk_insert _ _ _ d); [|now rewrite node_at_nonempty, Hn|assumption].
  simpl. rewrite (step_down _ _ Hc), node_at_nonempty.
  now rewrite lookup_insert_eq.
Qed.

Lemma mkdir_single_is_dir (p : Path) (f f' : FS) :
  Fs.mkdir_single true p f = Ok f' -> Fs.is_dir p f' = true.
Proof.
  unfold Fs.mkdir_single.
  destruct (Fs.os_mkdir p f) as [f1|e] eqn:Hm.
  - intros [= <-]. now apply os_mkdir_is_dir in Hm.
  - destruct e as [[] ?| | | | | |]; try discriminate;
      cbn [andb]; destruct (Fs.is_dir p f) eqn:Hd; try discriminate;
      now intros [= <-].
Qed.

(** After a successful [mkdir] the path names a directory. *)
Lemma mkdir_is_dir (p : Path) (f f' : FS) :
  Fs.mkdir p f = (Ok tt, f') -> Fs.is_dir p f' = true.
Proof.
  unfold Fs.mkdir. destruct p as [a ps]; cbn [absolute parts].
  rewrite <- (rev_involutive ps) at 2.
  generalize (List.rev ps) as rparts. clear ps. intros rparts.
  destruct rparts as [|c rparts]; cbn [Fs.mkdir_parents];
    destruct (Fs.os_mkdir _ f) as [f1|e] eqn:Hm;
    try (intros [= <-]; now apply os_mkdir_is_dir in Hm).
  - destruct e as [[] ?| | | | | |]; try discriminate;
      destruct (Fs.is_dir _ f) eqn:Hd; try discriminate; now intros [= <-].
  - destruct e as [[] ?| | | | | |]; try discriminate;
      try (destruct (Fs.is_dir _ f) eqn:Hd; try discriminate; now intros [= <-]).
    destruct (Fs.mkdir_parents a rparts f) as [[[]|e1] f2]; [|discriminate].
    destruct (Fs.mkdir_single true _ f2) as [f3|e3] eqn:Hs; [|discriminate].
    intros [= <-]. now apply mkdir_single_is_dir in Hs.
Qed.

Lemma walk_last t (cur comps : list string) (x : list string) :
  comps <> [] ->
  Fs.walk t cur comps = inl x ->
  exists d,
    Fs.walk t cur (List.removelast comps) = inl d
    /\ Fs.node_at t (Fs.step d (List.last comps EmptyString)) = Some IDir.
Proof.
  intros Hne Hw. rewrite (app_removelast_last EmptyString Hne) in Hw.
  rewrite walk_app in Hw.
  destruct (Fs.walk t cur (List.removelast comps)) as [d|k]; [|discriminate].
  exists d. split; [reflexivity|]. simpl in Hw.
  now destruct (Fs.node_at t _) as [[|data]|].
Qed.

(** [mkdir] of a directory that exists changes nothing. *)
Lemma mkdir_existing (p : Path) (f : FS) :
  Fs.is_dir p f = true -> Fs.mkdir p f = (Ok tt, f).
Proof.
  intros Hd. unfold Fs.mkdir. destruct p as [a ps]; cbn [absolute parts].
  assert (Hm : exists name,
             Fs.os_mkdir {| absolute := a; parts := ps |} f
             = Raise (OSError EEXIST name)).
  { revert Hd. unfold Fs.is_dir, Fs.os_mkdir.
    destruct (Fs.has_nul _); [discriminate|]. cbn [negb andb parts].
    destruct ps as [|s l]; [eauto|].
    destruct (Fs.walk _ _ (s :: l)) as [x|k] eqn:Hw; [|discriminate].
    intros _. apply walk_last in Hw as (d & -> & Hn); [|discriminate].
    unfold Fs.step in Hn.
    destruct (String.eqb _ "..") eqn:Hc; [eauto|].
    rewrite Hn. eauto. }
  destruct Hm as [name Hm].
  rewrite <- (rev_involutive ps) in Hm, Hd.
  destruct (List.rev ps) as [|c rparts]; cbn [Fs.mkdir_parents];
    now rewrite Hm, Hd.
Qed.

Lemma is_dir_insert (p : Path) (f : FS) loc (x : inode) :
  tree f !! loc <> Some IDir -> loc <> [] ->
  Fs.is_dir p f = true ->
  Fs.is_dir p {| cwd := cwd f; tree := <[loc := x]> (tree f) |} = true.
Proof.
  intros Hn Hne. unfold Fs.is_dir, Fs.start. cbn [cwd tree].
  destruct (Fs.has_nul p); [discriminate|]. cbn [negb andb].
  destruct (Fs.walk (tree f) _ _) as [d|k] eqn:Hw; [|discriminate].
  intros _. rewrite (walk_insert _ _ _ d); [reflexivity| |assumption].
  destruct loc; [congruence | assumption].
Qed.

(** Opening again the file just written succeeds, at the same place. *)
Lemma open_trunc_again (p : Path) (f f2 : FS) loc (x : list byte) :
  Fs.open_trunc p f = Ok (loc, f2) ->
  Fs.open_trunc p {| cwd := cwd f; tree := <[loc := IFile x]> (tree f) |}
  = Ok (loc, {| cwd := cwd f;
                tree := <[loc := IFile []]> (<[loc := IFile x]> (tree f)) |}).
Proof.
  unfold Fs.open_trunc, Fs.start. cbn [cwd tree].
  destruct (Fs.has_nul p); [discriminate|].
  destruct (parts p) as [|s l] eqn:Hp; [discriminate|].
  destruct (Fs.walk (tree f) _ _) as [d|k] eqn:Hw; [|discriminate].
  remember (List.last (s :: l) EmptyString) as c eqn:Hlast.
  destruct (String.eqb c "..") eqn:Hc; [discriminate|].
  rewrite !node_at_nonempty.
  intros Ho.
  assert (Hloc : loc = d ++ [c] /\ tree f !! (d ++ [c]) <> Some IDir).
  { destruct (tree f !! (d ++ [c])) as [[|data]|]; try discriminate;
      injection Ho as <- _; split; congruence. }
  destruct Hloc as [-> Hn].
  rewrite (walk_insert _ _ _ d); [|now rewrite node_at_nonempty|assumption].
  now rewrite node_at_nonempty, lookup_insert_eq.
Qed.

(** X8. An image write that succeeded can be repeated: a second write to
    the same request path, with any payload, succeeds as well, reports
    the same destination and leaves exactly the new payload there. *)
Theorem image_write_can_be_repeated (path : string) (A B : list byte)
  (w w1 : World) (p : string) :
  save_image_file path A w = (Ok p, w1) ->
  exists w2,
    save_image_file path B w1 = (Ok p, w2)
    /\ Fs.read (image_file_path path) (fs w2) = Some B
    /\ processing_stats w2
       = bump_images_received (bump_images_received (processing_stats w)).
Proof.
  intros (f1 & loc & f2 & Hmk & Ho & -> & ->)%save_image_file_ok.
  destruct (open_write_tree _ _ _ _ A Ho) as (Ht & Hc & Hn & _).
  assert (Hfs : Fs.write loc A f2
                = {| cwd := cwd f1; tree := <[loc := IFile A]> (tree f1) |}).
  { destruct (Fs.write loc A f2) as [c t]. cbn in Ht, Hc. congruence. }
  assert (Hne : loc <> []).
  { apply open_trunc_ok in Ho as (d & c & _ & _ & _ & _ & -> & _).
    now destruct d. }
  pose proof (open_trunc_again _ _ _ _ A Ho) as Ho2.
  rewrite save_image_file_run. cbv zeta. cbn [fs set_fs set_stats].
  rewrite Hfs, (mkdir_existing (image_dir path))
    by (apply is_dir_insert; auto; now apply mkdir_is_dir in Hmk).
  rewrite Ho2. eexists. split; [reflexivity|].
  cbn [fs set_fs set_stats processing_stats]. split; [|reflexivity].
  apply (read_after_write _ _ _ _ B Ho2).
Qed.

End RetryFacts.

(** ** The metadata record on its way to the file *)

Section EnrichFacts.

Context `{E : Env}.

Lemma dict_set_lookup_eq (k : string) (v : pyval) (d : list (string * pyval)) :
  PyVal.dict_lookup k (PyVal.dict_set k v d) = Some v.
Proof.
  induction d as [|[k' v'] d IH]; simpl.
  - now rewrite String.eqb_refl.
  - destruct (String.eqb k' k) eqn:Hk; simpl; now rewrite Hk.
Qed.

Lemma dict_set_lookup_ne (k k0 : string) (v : pyval)
  (d : list (string * pyval)) :
  k0 <> k ->
  PyVal.dict_lookup k0 (PyVal.dict_set k v d) = PyVal.dict_lookup k0 d.
Proof.
  intros Hne. induction d as [|[k' v'] d IH]; simpl.
  - destruct (String.eqb_spec k k0); [congruence | reflexivity].
  - destruct (String.eqb_spec k' k) as [->|Hk]; simpl.
    + destruct (String.eqb_spec k k0); [congruence | reflexivity].
    + now rewrite IH.
Qed.

(** X4. When the record has inferences, the decoder is called exactly
    once, on the [O] field of the first inference (the later inferences
    are not looked at); its result is stored under [DeserializedData],
    replacing a value the record already had there and leaving every
    other field alone; and a request that succeeds leaves the
    serialisation of that enriched record at the destination. *)
Theorem first_inference_decoded_and_stored (path : string)
  (request : Request) (w : World) (d : list (string * pyval))
  (first : pyval) (rest : list pyval) (o data : pyval) :
  json_loads (body request) = Ok (PyDict d) ->
  PyVal.dict_lookup "Inferences" d = Some (PyList (first :: rest)) ->
  PyVal.get first "O" (PyString EmptyString) = Ok o ->
  get_deserialize_data o = Ok data ->
  let r := update_inference_result path request w in
  let enriched := PyVal.dict_set "DeserializedData" data d in
  decoder_calls (snd r) = o :: decoder_calls w
  /\ PyVal.dict_lookup "DeserializedData" enriched = Some data
  /\ (forall k, k <> "DeserializedData" ->
                PyVal.dict_lookup k enriched = PyVal.dict_lookup k d)
  /\ (forall resp,
        fst r = Ok resp -> reports_success resp = true ->
        exists json_str,
          json_dumps (PyDict enriched) = Ok json_str
          /\ Fs.read (meta_file_path path) (fs (snd r))
             = Some (list_byte_of_string json_str)).
Proof.
  intros Hl Hinf Hget Hdec r enriched. subst r enriched.
  split; [|split; [apply dict_set_lookup_eq|split;
                   [intros k Hk; now apply dict_set_lookup_ne|]]].
  - unfold update_inference_result, bind, try_except, lift, time_time.
    rewrite Hl, get_dict, (enrich_first _ _ _ _ _ Hinf Hget), Hdec.
    match goal with
    | |- context [save_meta_file path ?rec ?w1] =>
        pose proof (save_meta_file_decoder_calls path rec w1) as Hcalls;
        destruct (save_meta_file path rec w1) as [[p|e] w2]
    end; cbn in Hcalls |- *; exact Hcalls.
  - unfold update_inference_result, bind, try_except, lift, time_time.
    rewrite Hl, get_dict, (enrich_first _ _ _ _ _ Hinf Hget), Hdec.
    match goal with
    | |- context [save_meta_file path ?rec ?w1] =>
        destruct (save_meta_file path rec w1) as [[p|e] w2] eqn:Hs
    end; cbn.
    + intros resp _ _.
      apply save_meta_file_ok in Hs
        as (f1 & js & loc & f2 & _ & Hd & Ho & _ & ->).
      exists js. split; [assumption|].
      apply (read_after_write _ _ _ _ _ Ho).
    + intros resp [= <-]. discriminate.
Qed.

(** X5. A body that parses to something other than an object, and an
    object whose first inference is not an object, are answered with a
    failure body that carries the [AttributeError] of the missing [get];
    a truthy [Inferences] value that cannot be indexed with [0] is
    answered with the error of that indexing. In all three cases the
    decoder is not called, nothing is written and no counter moves. *)
Theorem malformed_record_rejected (path : string) (request : Request)
  (w : World) :
  let r := update_inference_result path request w in
  let rejected (e : exn) :=
    fst r = Ok (PyDict [("status", PyInt 500);
                        ("error", PyString (str_exn e));
                        ("process_time_ms",
                         PyInt (process_time_ms (clock w (ticks w))
                                                (clock w (S (ticks w)))))])
    /\ fs (snd r) = fs w
    /\ processing_stats (snd r) = processing_stats w
    /\ decoder_calls (snd r) = decoder_calls w in
  (forall v, json_loads (body request) = Ok v ->
             (forall d, v <> PyDict d) ->
             rejected (AttributeError ("'" +:+ PyVal.type_name v
                                       +:+ "' object has no attribute 'get'")))
  /\ (forall d first rest,
        json_loads (body request) = Ok (PyDict d) ->
        PyVal.dict_lookup "Inferences" d = Some (PyList (first :: rest)) ->
        (forall o, first <> PyDict o) ->
        rejected (AttributeError ("'" +:+ PyVal.type_name first
                                  +:+ "' object has no attribute 'get'")))
  /\ (forall d v e,
        json_loads (body request) = Ok (PyDict d) ->
        PyVal.dict_lookup "Inferences" d = Some v ->
        PyVal.truthy v = true ->
        PyVal.getitem0 v = Raise e ->
        rejected e).
Proof.
  intros r rejected. subst r rejected. cbv beta.
  unfold update_inference_result, bind, try_except, lift, time_time.
  split; [|split].
  - intros v -> Hv.
    destruct v; try (now cbn); exfalso; eapply Hv; reflexivity.
  - intros d first rest -> Hinf Hfirst. rewrite get_dict.
    unfold enrich, bind, lift. rewrite get_dict, Hinf.
    cbn [default id PyVal.truthy PyVal.getitem0].
    destruct first; try (now cbn); exfalso; eapply Hfirst; reflexivity.
  - intros d v e -> Hinf Ht Hg. rewrite get_dict.
    unfold enrich, bind, lift. rewrite get_dict, Hinf.
    cbn [default id]. rewrite Ht, Hg. now cbn.
Qed.

End EnrichFacts.

(** ** The layout mirrors the request path *)

Section LayoutFacts.

Context `{E : Env}.

Lemma join_split (sep : ascii) (s : string) :
  PyStr.join (String sep EmptyString) (PyStr.split sep s) = s.
Proof.
  induction s as [|c s IH]; [reflexivity|].
  pose proof (split_nonempty sep s) as Hne.
  cbn [PyStr.split]. destruct (Ascii.eqb_spec c sep) as [->|Hc].
  - destruct (PyStr.split sep s) as [|x r]; [congruence|].
    change (PyStr.join (String sep EmptyString) (EmptyString :: x :: r))
      with (String sep (PyStr.join (String sep EmptyString) (x :: r))).
    now rewrite IH.
  - destruct (PyStr.split sep s) as [|x r]; [congruence|].
    rewrite <- IH. destruct r as [|y r]; reflexivity.
Qed.

(** X9. For a request path with plain segments the destination of an
    image is the request path itself behind [image/], and the destination
    of a metadata record whose name ends in [.json] is the request path
    itself behind [meta/]. *)
Theorem destination_is_root_then_request_path (path : string) :
  Forall (fun seg => plain seg = true) (PyStr.split "/" path) ->
  PurePath.str (image_file_path path) = "image/" +:+ path
  /\ (PyStr.endswith (snd (split_path path)) ".json" = true ->
      PurePath.str (meta_file_path path) = "meta/" +:+ path).
Proof.
  intros Hplain.
  pose proof (split_nonempty "/" path) as Hne.
  pose proof (join_split "/" path) as Hj.
  split.
  - rewrite image_file_path_parts, (plain_filter _ Hplain).
    destruct (PyStr.split "/" path) as [|x r] eqn:Hs; [congruence|].
    unfold PurePath.str; cbn [absolute parts].
    change (PyStr.join "/" ("image" :: x :: r))
      with ("image" +:+ "/" +:+ PyStr.join "/" (x :: r)).
    now rewrite Hj.
  - intros Hjson. rewrite meta_file_path_parts, (meta_filename_json _ Hjson).
    pose proof (split_path_segments path) as Hsegs.
    rewrite <- Hsegs in Hplain. apply Forall_app in Hplain as [Hd _].
    rewrite (plain_filter _ Hd), Hsegs.
    destruct (PyStr.split "/" path) as [|x r] eqn:Hs; [congruence|].
    unfold PurePath.str; cbn [absolute parts].
    change (PyStr.join "/" ("meta" :: x :: r))
      with ("meta" +:+ "/" +:+ PyStr.join "/" (x :: r)).
    now rewrite Hj.
Qed.


Lemma split_app_no_sep (sep : ascii) (s t : string) :
  PyStr.contains_char sep t = false ->
  PyStr.split sep (s +:+ t)
  = List.removelast (PyStr.split sep s)
    ++ [List.last (PyStr.split sep s) EmptyString +:+ t].
Proof.
  intros Ht. induction s as [|c s IH].
  - change (PyStr.split sep t = [t]). exact (split_single _ _ Ht).
  - rewrite app_cons. cbn [PyStr.split].
    pose proof (split_nonempty sep s) as Hne.
    destruct (Ascii.eqb c sep).
    + rewrite IH. destruct (PyStr.split sep s) as [|x r]; [congruence|].
      reflexivity.
    + rewrite IH. destruct (PyStr.split sep s) as [|x [|y r]]; [congruence| |].
      * reflexivity.
      * cbn [List.removelast List.last app]. reflexivity.
Qed.

(** X11. A metadata request path that ends in [.txt] and the same path
    with [.json] instead have one destination: the later request
    overwrites the file of the earlier one. *)
Theorem txt_and_json_share_a_destination (stem : string) :
  meta_file_path (stem +:+ ".txt") = meta_file_path (stem +:+ ".json").
Proof.
  unfold meta_file_path, split_path, list_last, list_init.
  rewrite !split_app_no_sep by reflexivity.
  rewrite !last_last, !removelast_last, !length_app. cbn [length].
  now rewrite meta_filename_txt, meta_filename_fixed.
Qed.

End LayoutFacts.

(** ** Metadata lands under the normalised name *)

Section MetaFacts.

Context `{E : Env}.




End MetaFacts.

(** ** Start-up directories *)

Section StartupFacts.

Lemma is_dir_keeps (p : Path) (f f' : FS) :
  cwd f' = cwd f ->
  (forall l n, tree f !! l = Some n -> tree f' !! l = Some n) ->
  Fs.is_dir p f = true -> Fs.is_dir p f' = true.
Proof.
  intros Hc Hk. unfold Fs.is_dir, Fs.start. rewrite Hc.
  destruct (Fs.has_nul p); [discriminate|]. cbn [negb andb].
  destruct (Fs.walk (tree f) _ _) as [d|k] eqn:Hw; [|discriminate].
  now rewrite (walk_keeps _ _ _ _ _ Hk Hw).
Qed.

Lemma is_dir_single (name : string) (f : FS) :
  plain name = true ->
  Fs.is_dir {| absolute := false; parts := [name] |} f = true ->
  tree f !! (cwd f ++ [name]) = Some IDir.
Proof.
  intros Hp. apply plain_facts in Hp as (_ & Hdd & _).
  unfold Fs.is_dir, Fs.start; cbn [absolute parts Fs.walk].
  rewrite (step_down _ _ Hdd), node_at_nonempty.
  destruct (Fs.has_nul _); [discriminate|].
  now destruct (tree f !! (cwd f ++ [name])) as [[|x]|].
Qed.

(** One top-level directory: made unless a regular file has its name. *)
Lemma single_dir_made (name : string) (f : FS) :
  plain name = true ->
  (forall x, tree f !! (cwd f ++ [name]) <> Some (IFile x)) ->
  exists f1,
    Fs.mkdir {| absolute := false; parts := [name] |} f = (Ok tt, f1).
Proof.
  intros Hp Hfree. unfold Fs.mkdir; cbn [absolute parts List.rev app].
  destruct (mkdir_parents_plain false [name] f (cwd f) eq_refl)
    as (t1 & -> & _); [now constructor| |eauto].
  cbn. destruct (tree f !! (cwd f ++ [name])) as [[|x]|] eqn:Hn; auto.
  now destruct (Hfree x).
Qed.

(** X13. When none of [image], [meta] and [logs] is a regular file of
    the working directory, [ensure_directories] succeeds and the three
    are directories afterwards; it creates and changes no regular file,
    moves no counter, and running it again changes nothing. *)
Theorem ensure_directories_makes_the_roots (w : World) :
  (forall name x,
      In name ["image"; "meta"; "logs"] ->
      tree (fs w) !! (cwd (fs w) ++ [name]) <> Some (IFile x)) ->
  exists w',
    ensure_directories w = (Ok tt, w')
    /\ (forall name,
          In name ["image"; "meta"; "logs"] ->
          tree (fs w') !! (cwd (fs w) ++ [name]) = Some IDir)
    /\ (forall l x, tree (fs w') !! l = Some (IFile x)
                    <-> tree (fs w) !! l = Some (IFile x))
    /\ processing_stats w' = processing_stats w
    /\ ensure_directories w' = (Ok tt, w').
Proof.
  intros Hfree.
  unfold ensure_directories, for_each, bind, Path_mkdir, ret.
  change Config.IMAGE_DIR with {| absolute := false; parts := ["image"] |}.
  change Config.META_DIR with {| absolute := false; parts := ["meta"] |}.
  change Config.LOG_DIR with {| absolute := false; parts := ["logs"] |}.
  destruct (single_dir_made "image" (fs w) eq_refl) as [f1 H1];
    [intros x; apply Hfree; simpl; auto|].
  pose proof (mkdir_files _ _ _ _ H1) as [Hc1 Hb1].
  pose proof (mkdir_keeps _ _ _ _ H1) as Hk1.
  destruct (single_dir_made "meta" f1 eq_refl) as [f2 H2].
  { intros x Hx. apply Hb1 in Hx. rewrite Hc1 in Hx.
    revert Hx. apply Hfree. simpl; auto. }
  pose proof (mkdir_files _ _ _ _ H2) as [Hc2 Hb2].
  pose proof (mkdir_keeps _ _ _ _ H2) as Hk2.
  destruct (single_dir_made "logs" f2 eq_refl) as [f3 H3].
  { intros x Hx. apply Hb2 in Hx. apply Hb1 in Hx. rewrite Hc2, Hc1 in Hx.
    revert Hx. apply Hfree. simpl; auto. }
  pose proof (mkdir_files _ _ _ _ H3) as [Hc3 Hb3].
  pose proof (mkdir_keeps _ _ _ _ H3) as Hk3.
  assert (Hd1 : Fs.is_dir {| absolute := false; parts := ["image"] |} f3 = true).
  { apply (is_dir_keeps _ f1); [congruence | auto |].
    now apply mkdir_is_dir in H1. }
  assert (Hd2 : Fs.is_dir {| absolute := false; parts := ["meta"] |} f3 = true).
  { apply (is_dir_keeps _ f2); [congruence | auto |].
    now apply mkdir_is_dir in H2. }
  assert (Hd3 : Fs.is_dir {| absolute := false; parts := ["logs"] |} f3 = true)
    by now apply mkdir_is_dir in H3.
  rewrite H1. cbn [fs set_fs]. rewrite H2. cbn [fs set_fs]. rewrite H3.
  eexists. split; [reflexivity|]. cbn [fs set_fs processing_stats].
  split; [|split; [|split; [reflexivity|]]].
  - assert (Hcwd : cwd f3 = cwd (fs w)) by congruence.
    intros name [<-|[<-|[<-|[]]]]; rewrite <- Hcwd;
      now apply is_dir_single.
  - intros l x. split; auto.
  - rewrite (mkdir_existing _ _ Hd1). cbn [fs set_fs].
    rewrite (mkdir_existing _ _ Hd2). cbn [fs set_fs].
    rewrite (mkdir_existing _ _ Hd3). reflexivity.
Qed.

End StartupFacts.

(** ** The redirect endpoint *)

Section RedirectFacts.

Lemma replace_from_skip (old new : string) (k : nat) (s : string) :
  replace_from old new k s = replace_from old new 0 (PyStr.drop k s).
Proof.
  revert k; induction s as [|c s IH]; intros [|k]; try reflexivity.
  cbn [replace_from PyStr.drop]. apply IH.
Qed.

(** One step of the scan for the scheme. *)
Lemma replace_http_step (s : string) :
  replace_from "http://" "https://" 0 s =
  if String.prefix "http://" s
  then "https://" +:+ replace_from "http://" "https://" 0 (PyStr.drop 7 s)
  else match s with
       | EmptyString => EmptyString
       | String c s' => String c (replace_from "http://" "https://" 0 s')
       end.
Proof.
  destruct s as [|c s]; [reflexivity|].
  cbn [replace_from]. destruct (String.prefix "http://" (String c s)); [|reflexivity].
  now rewrite replace_from_skip.
Qed.

Lemma prefix_cons (a b : ascii) (q s : string) :
  String.prefix (String a q) (String b s)
  = Ascii.eqb a b && String.prefix q s.
Proof.
  cbn [String.prefix]. destruct (ascii_dec a b) as [->|Hne].
  - now rewrite Ascii.eqb_refl.
  - apply Ascii.eqb_neq in Hne. now rewrite Hne.
Qed.

(** A text without [h] at the head of the output was at the head of the
    input. *)
Lemma prefix_of_replaced (q s : string) :
  PyStr.contains_char "h" q = false ->
  String.prefix q (replace_from "http://" "https://" 0 s) = true ->
  String.prefix q s = true.
Proof.
  revert s; induction q as [|a q IH]; intros s Hq; [now destruct s|].
  cbn [PyStr.contains_char] in Hq. apply orb_false_iff in Hq as [Ha Hq].
  rewrite replace_http_step.
  destruct (String.prefix "http://" s) eqn:Hp.
  - change ("https://" +:+ ?x) with (String "h" ("ttps://" +:+ x)).
    rewrite prefix_cons, Ha. discriminate.
  - destruct s as [|c s]; [discriminate|].
    rewrite !prefix_cons. intros [-> H]%andb_true_iff.
    now rewrite (IH _ Hq H).
Qed.

Lemma drop_shorter (k : nat) (s : string) :
  (String.length (PyStr.drop k s) <= String.length s)%nat.
Proof.
  revert s; induction k as [|k IH]; intros [|c s]; simpl; try lia.
  specialize (IH s). lia.
Qed.

Lemma replaced_has_no_http (n : nat) (s : string) :
  (String.length s <= n)%nat ->
  occurs "http://" (replace_from "http://" "https://" 0 s) = false.
Proof.
  revert s; induction n as [|n IH]; intros s Hn.
  - destruct s; [reflexivity | simpl in Hn; lia].
  - rewrite replace_http_step.
    destruct (String.prefix "http://" s) eqn:Hp.
    + destruct s as [|c s]; [discriminate|].
      assert (Hrest : occurs "http://"
                        (replace_from "http://" "https://" 0
                           (PyStr.drop 7 (String c s))) = false).
      { apply IH. change (PyStr.drop 7 (String c s)) with (PyStr.drop 6 s).
        pose proof (drop_shorter 6 s). cbn [String.length] in Hn. lia. }
      revert Hrest.
      generalize (replace_from "http://" "https://" 0 (PyStr.drop 7 (String c s))).
      intros T HT.
      change ("https://" +:+ T)
        with (String "h" (String "t" (String "t" (String "p" (String "s"
               (String ":" (String "/" (String "/" T)))))))).
      cbn [occurs]. rewrite !prefix_cons. cbn [Ascii.eqb Bool.eqb andb orb].
      exact HT.
    + destruct s as [|c s]; [reflexivity|].
      cbn [occurs]. rewrite IH by (simpl in Hn; lia). rewrite orb_false_r.
      destruct (String.prefix "http://"
                  (String c (replace_from "http://" "https://" 0 s))) eqn:Hq;
        [|reflexivity].
      rewrite prefix_cons in Hq. apply andb_true_iff in Hq as [Hc Hq].
      apply prefix_of_replaced in Hq; [|reflexivity].
      rewrite prefix_cons, Hc, Hq in Hp. discriminate.
Qed.

Lemma replace_without_http (s : string) :
  occurs "http://" s = false -> replace_from "http://" "https://" 0 s = s.
Proof.
  induction s as [|c s IH]; [reflexivity|].
  cbn [occurs]. intros [Hp Ho]%orb_false_iff.
  cbn [replace_from]. now rewrite Hp, (IH Ho).
Qed.

(** X14. The redirect endpoint rewrites every [http://] of the URL, not
    only the scheme: the text it answers with contains no [http://] at
    all; a URL without [http://] is answered as it is; a URL that starts
    with [http://] is answered with [https://] in its place; and
    rewriting the answer again changes nothing. The state is untouched. *)
Theorem redirect_rewrites_every_http (url : string) (w : World) :
  let https_url := str_replace "http://" "https://" url in
  redirect_https url w = (Ok (PyDict [("redirect", PyString https_url)]), w)
  /\ occurs "http://" https_url = false
  /\ (occurs "http://" url = false -> https_url = url)
  /\ (forall rest, url = "http://" +:+ rest ->
                   https_url
                   = "https://" +:+ str_replace "http://" "https://" rest)
  /\ str_replace "http://" "https://" https_url = https_url.
Proof.
  cbv zeta. unfold str_replace. split; [reflexivity|].
  assert (Hno : occurs "http://" (replace_from "http://" "https://" 0 url) = false)
    by (apply (replaced_has_no_http (String.length url)); lia).
  split; [exact Hno|]. split; [apply replace_without_http|]. split.
  - intros rest ->. rewrite replace_http_step.
    change ("http://" +:+ rest)
      with (String "h" (String "t" (String "t" (String "p" (String ":"
             (String "/" (String "/" rest))))))).
    rewrite !prefix_cons.
    assert (String.prefix EmptyString rest = true) as -> by now destruct rest.
    reflexivity.
  - now apply replace_without_http.
Qed.

End RedirectFacts.

(** ** The filesystem stays a tree *)

Section WellFormed.

Context `{E : Env}.

Implicit Types (t : gmap (list string) inode) (loc d : list string).

Lemma walk_dir t (cur comps : list string) d :
  Fs.node_at t cur = Some IDir ->
  Fs.walk t cur comps = inl d -> Fs.node_at t d = Some IDir.
Proof.
  revert cur; induction comps as [|c comps IH]; intros cur Hc; simpl.
  - now intros [= <-].
  - destruct (Fs.node_at t (Fs.step cur c)) as [[|data]|] eqn:Hn;
      try discriminate.
    now apply IH.
Qed.

Lemma node_at_insert t (q loc : list string) (x : inode) :
  t !! loc <> Some IDir ->
  Fs.node_at t q = Some IDir ->
  Fs.node_at (<[loc := x]> t) q = Some IDir.
Proof.
  intros Hn Hq. destruct q as [|s q]; [reflexivity|].
  simpl in *. rewrite lookup_insert_ne; [assumption | congruence].
Qed.

Lemma start_dir (f : FS) (p : Path) :
  well_formed f -> Fs.node_at (tree f) (Fs.start f p) = Some IDir.
Proof. intros [Hc _]. unfold Fs.start. now destruct (absolute p). Qed.

(** An entry put into a directory, where no directory was, keeps the
    filesystem well formed. *)
Lemma well_formed_insert (f : FS) d (c : string) (x : inode) :
  well_formed f ->
  Fs.node_at (tree f) d = Some IDir ->
  tree f !! (d ++ [c]) <> Some IDir ->
  well_formed {| cwd := cwd f; tree := <[d ++ [c] := x]> (tree f) |}.
Proof.
  intros [Hc Hwf] Hd Hn. split; cbn [cwd tree].
  - now apply node_at_insert.
  - intros l n. rewrite lookup_insert. destruct (decide (d ++ [c] = l)) as [<-|Hne].
    + intros _. split; [now destruct d|].
      rewrite removelast_last. now apply node_at_insert.
    + intros Hl. destruct (Hwf _ _ Hl) as [Hl0 Hp]. split; [assumption|].
      now apply node_at_insert.
Qed.

Lemma os_mkdir_well_formed (p : Path) (f f' : FS) :
  well_formed f -> Fs.os_mkdir p f = Ok f' -> well_formed f'.
Proof.
  intros Hwf (d & Hw & Hn & ->)%os_mkdir_ok.
  apply well_formed_insert; [assumption | | congruence].
  eapply walk_dir; [|exact Hw]. now apply start_dir.
Qed.

Lemma mkdir_single_well_formed (b : bool) (p : Path) (f f' : FS) :
  well_formed f -> Fs.mkdir_single b p f = Ok f' -> well_formed f'.
Proof.
  intros Hwf. unfold Fs.mkdir_single.
  destruct (Fs.os_mkdir p f) as [f1|e] eqn:Hm.
  - intros [= <-]. eapply os_mkdir_well_formed; eauto.
  - destruct e as [[] ?| | | | | |]; try discriminate;
      destruct (b && Fs.is_dir p f); try discriminate; now intros [= <-].
Qed.

Lemma mkdir_parents_well_formed (a : bool) (rparts : list string)
  (f f' : FS) (r : Result unit) :
  well_formed f -> Fs.mkdir_parents a rparts f = (r, f') -> well_formed f'.
Proof.
  revert f f' r; induction rparts as [|c rparts IH]; intros f f' r Hwf;
    cbn [Fs.mkdir_parents];
    destruct (Fs.os_mkdir _ f) as [f1|e] eqn:Hm;
    try (intros [= <- <-]; eapply os_mkdir_well_formed; now eauto).
  - destruct e as [[] ?| | | | | |]; try (now intros [= <- <-]);
      destruct (Fs.is_dir _ f); now intros [= <- <-].
  - destruct e as [[] ?| | | | | |]; try (now intros [= <- <-]);
      try (destruct (Fs.is_dir _ f); now intros [= <- <-]).
    destruct (Fs.mkdir_parents a rparts f) as [[[]|e1] f2] eqn:Hrec;
      [|intros [= <- <-]; eapply IH; now eauto].
    pose proof (IH _ _ _ Hwf Hrec) as Hwf2.
    destruct (Fs.mkdir_single true _ f2) as [f3|e3] eqn:Hs;
      intros [= <- <-]; [|assumption].
    eapply mkdir_single_well_formed; eauto.
Qed.

Lemma open_write_well_formed (p : Path) (f f2 : FS) loc (data : list byte) :
  well_formed f -> Fs.open_trunc p f = Ok (loc, f2) ->
  well_formed (Fs.write loc data f2).
Proof.
  intros Hwf Ho.
  destruct (read_after_write _ _ _ _ data Ho) as (_ & _ & ->).
  apply open_trunc_ok in Ho as (d & c & _ & Hw & _ & _ & -> & Hn & _).
  rewrite node_at_nonempty in Hn.
  apply well_formed_insert; [assumption | | assumption].
  eapply walk_dir; [|exact Hw]. now apply start_dir.
Qed.

(** X15. Well-formedness is an invariant of the handlers' filesystem
    work: when the working directory is a directory and every entry sits
    in a directory, the same holds after [ensure_directories], after an
    image save and after a metadata save, whether they succeed or not. *)
Theorem saves_keep_the_filesystem_well_formed (w : World) :
  well_formed (fs w) ->
  well_formed (fs (snd (ensure_directories w)))
  /\ (forall path data, well_formed (fs (snd (save_image_file path data w))))
  /\ (forall path record, well_formed (fs (snd (save_meta_file path record w)))).
Proof.
  intros Hwf. split; [|split].
  - unfold ensure_directories, for_each, bind, Path_mkdir, ret.
    destruct (Fs.mkdir Config.IMAGE_DIR (fs w)) as [r1 f1] eqn:H1.
    apply mkdir_parents_well_formed in H1; [|assumption].
    destruct r1 as [[]|e]; [|exact H1]. cbn [fs set_fs].
    destruct (Fs.mkdir Config.META_DIR f1) as [r2 f2] eqn:H2.
    apply mkdir_parents_well_formed in H2; [|assumption].
    destruct r2 as [[]|e]; [|exact H2]. cbn [fs set_fs].
    destruct (Fs.mkdir Config.LOG_DIR f2) as [r3 f3] eqn:H3.
    apply mkdir_parents_well_formed in H3; [|assumption].
    now destruct r3 as [[]|e].
  - intros path data. rewrite save_image_file_run. cbv zeta.
    destruct (Fs.mkdir _ (fs w)) as [r1 f1] eqn:H1.
    apply mkdir_parents_well_formed in H1; [|assumption].
    destruct r1 as [[]|e]; [|exact H1].
    destruct (Fs.open_trunc _ f1) as [[loc f2]|e] eqn:Ho; [|exact H1].
    cbn [snd fs set_fs set_stats]. eapply open_write_well_formed; eauto.
  - intros path record. rewrite save_meta_file_run. cbv zeta.
    destruct (Fs.mkdir _ (fs w)) as [r1 f1] eqn:H1.
    apply mkdir_parents_well_formed in H1; [|assumption].
    destruct r1 as [[]|e]; [|exact H1].
    destruct (json_dumps record) as [js|e]; [|exact H1].
    destruct (Fs.open_trunc _ f1) as [[loc f2]|e] eqn:Ho; [|exact H1].
    cbn [snd fs set_fs set_stats]. eapply open_write_well_formed; eauto.
Qed.

End WellFormed.

(** ** Disk usage as the status endpoint computes it *)

Section DiskUsage.

Context `{E : Env}.

Implicit Types (t : gmap (list string) inode) (loc d root : list string).



















End DiskUsage.

(** ** The further properties on concrete requests *)

Section MoreExamples.

Import Ref Scenario.

Lemma world0_well_formed : well_formed (fs world0).
Proof.
  split; [reflexivity|]. intros loc n H.
  unfold world0, fs0 in H; cbn [fs tree] in H.
  repeat (apply lookup_insert_Some in H as [[<- <-]|[_ H]];
          [split; [discriminate | reflexivity]|]).
  now rewrite lookup_empty in H.
Qed.

Lemma failed_save_counts_one_error_witness :
  let r := save_image_file "a/" (bytes "PNG") world0 in
  processing_stats (snd r) = bump_errors (processing_stats world0)
  /\ log (snd r)
     = [LogError [LText "Error saving image file "; LText "a/"; LText ": ";
                  LText "[Errno 21] Is a directory: 'image/a'"]].
Proof.
  apply (proj1 failed_save_counts_one_error "a/" (bytes "PNG") world0
           (OSError EISDIR "image/a")).
  vm_compute. reflexivity.
Defined.

Lemma first_inference_decoded_and_stored_witness :
  let r := update_inference_result result_txt (request good_inference) world0 in
  (decoder_calls (snd r) = [PyString "ok"]
   /\ PyVal.dict_lookup "DeserializedData"
        (PyVal.dict_set "DeserializedData" (PyDict [("x", PyInt 1)])
           [("DeviceID", PyString "dev1");
            ("Inferences", PyList [PyDict [("O", PyString "ok")]])])
      = Some (PyDict [("x", PyInt 1)])
   /\ (forall k, k <> "DeserializedData" ->
         PyVal.dict_lookup k
           (PyVal.dict_set "DeserializedData" (PyDict [("x", PyInt 1)])
              [("DeviceID", PyString "dev1");
               ("Inferences", PyList [PyDict [("O", PyString "ok")]])])
         = PyVal.dict_lookup k
             [("DeviceID", PyString "dev1");
              ("Inferences", PyList [PyDict [("O", PyString "ok")]])])
   /\ (forall resp,
         fst r = Ok resp -> reports_success resp = true ->
         exists json_str,
           json_dumps
             (PyDict (PyVal.dict_set "DeserializedData" (PyDict [("x", PyInt 1)])
                        [("DeviceID", PyString "dev1");
                         ("Inferences", PyList [PyDict [("O", PyString "ok")]])]))
           = Ok json_str
           /\ Fs.read (meta_file_path result_txt) (fs (snd r))
              = Some (list_byte_of_string json_str)))
  /\ reports_success
       (match fst r with Ok d => d | Raise _ => PyNone end) = true
  /\ Fs.read (meta_file_path result_txt) (fs (snd r))
     = Some (bytes (json_text
          "{'DeviceID': 'dev1', 'Inferences': [{'O': 'ok'}], 'DeserializedData': {'x': 1}}")).
Proof.
  split.
  - apply (first_inference_decoded_and_stored result_txt
             (request good_inference) world0
             [("DeviceID", PyString "dev1");
              ("Inferences", PyList [PyDict [("O", PyString "ok")]])]
             (PyDict [("O", PyString "ok")]) [] (PyString "ok")
             (PyDict [("x", PyInt 1)]));
      vm_compute; reflexivity.
  - vm_compute. split; reflexivity.
Defined.


Lemma image_write_can_be_repeated_witness :
  let w1 := snd (save_image_file frame001 (bytes "AAAA") world0) in
  exists w2,
    save_image_file frame001 (bytes "BB") w1
    = (Ok "image/dev1/2024/frame001.jpg", w2)
    /\ Fs.read (image_file_path frame001) (fs w2) = Some (bytes "BB")
    /\ processing_stats w2
       = bump_images_received (bump_images_received (processing_stats world0)).
Proof.
  apply (image_write_can_be_repeated frame001 (bytes "AAAA") (bytes "BB") world0).
  vm_compute. reflexivity.
Defined.

Lemma destination_is_root_then_request_path_witness :
  PurePath.str (image_file_path frame001) = "image/dev1/2024/frame001.jpg"
  /\ (PyStr.endswith (snd (split_path "dev1/2024/result.json")) ".json" = true ->
      PurePath.str (meta_file_path "dev1/2024/result.json")
      = "meta/dev1/2024/result.json").
Proof.
  split.
  - apply (proj1 (destination_is_root_then_request_path frame001
                    ltac:(repeat constructor))).
  - apply (proj2 (destination_is_root_then_request_path "dev1/2024/result.json"
                    ltac:(repeat constructor))).
Defined.


Lemma ensure_directories_makes_the_roots_witness :
  exists w',
    ensure_directories bare_world = (Ok tt, w')
    /\ (forall name,
          In name ["image"; "meta"; "logs"] ->
          tree (fs w') !! (["srv"; "app"] ++ [name]) = Some IDir)
    /\ (forall l x, tree (fs w') !! l = Some (IFile x)
                    <-> tree (fs bare_world) !! l = Some (IFile x))
    /\ processing_stats w' = processing_stats bare_world
    /\ ensure_directories w' = (Ok tt, w').
Proof.
  apply (ensure_directories_makes_the_roots bare_world).
  intros name x [<-|[<-|[<-|[]]]]; vm_compute; discriminate.
Defined.

Lemma saves_keep_the_filesystem_well_formed_witness :
  well_formed (fs (snd (ensure_directories world0)))
  /\ (forall path data, well_formed (fs (snd (save_image_file path data world0))))
  /\ (forall path record,
        well_formed (fs (snd (save_meta_file path record world0)))).
Proof.
  apply (saves_keep_the_filesystem_well_formed world0 world0_well_formed).
Defined.


End MoreExamples.
